(** * ElderCare API: a shallow embedding of the request handlers

    The handlers of [main.py] are embedded as functions in a small
    state-and-exception monad over an in-memory picture of the two MongoDB
    collections ([users] and [service_requests]).  Documents are Python
    dictionaries, modelled as finite maps from field names to values. *)

From Stdlib Require Import DecimalString.
From stdpp Require Import base strings gmap list sorting.

Local Open Scope string_scope.

(** ** What the handlers take from their libraries

    [bson.ObjectId], Python floats and FastAPI's rendering of an
    [HTTPException] are not code of this repository; the handlers only move
    their values around, so they are taken as an interface. *)

Class Runtime := {
  (** 12-byte store identifiers, [bson.ObjectId] *)
  oid : Type;
  (** Python [float], the type of [cost] *)
  num : Type;
  oid_eq_dec :: EqDecision oid;
  num_eq_dec :: EqDecision num;
  (** [ObjectId(s)] for a [str] argument; [None] when bson raises *)
  ObjectId : string → option oid;
  (** [str(o)] for an [ObjectId] *)
  oid_str : oid → string;
  (** [str(x)] for a [float] *)
  num_str : num → string;
  (** the store's comparison inside one BSON type *)
  oid_leb : oid → oid → bool;
  num_leb : num → num → bool;
  (** [str(e)] for an [HTTPException] with the given code and detail *)
  HTTPException_str : nat → string → string;
  (** [str(e)] for the [InvalidOperation] pymongo raises when the named
      property of an unacknowledged write result is read *)
  InvalidOperation_str : string → string
}.

(** The store's comparison is total inside each BSON type. *)
Class RuntimeOrder `{Runtime} : Prop := {
  oid_leb_total : ∀ a b, oid_leb a b = true ∨ oid_leb b a = true;
  num_leb_total : ∀ a b, num_leb a b = true ∨ num_leb b a = true
}.

(** ** models.py *)

Module UserSignup.
Record t := mk { name : string; email : string; password : string;
                 dob : string; role : string }.
End UserSignup.

Module UserLogin.
Record t := mk { email : string; password : string }.
End UserLogin.

Module ServiceRequest.
Record t `{Runtime} := mk {
  userId : string; userName : string; userEmail : string;
  serviceType : string; requirements : string; cost : num;
  status : string; createdAt : string }.

(** The request body before validation: [status] may be left out. *)
Record payload `{Runtime} := mk_payload {
  p_userId : string; p_userName : string; p_userEmail : string;
  p_serviceType : string; p_requirements : string; p_cost : num;
  p_status : option string; p_createdAt : string }.

(** Building the model from the body: [status: str = "pending"]. *)
Definition of_payload `{Runtime} (p : payload) : t :=
  {| userId := p_userId p; userName := p_userName p;
     userEmail := p_userEmail p; serviceType := p_serviceType p;
     requirements := p_requirements p; cost := p_cost p;
     status := default "pending" (p_status p);
     createdAt := p_createdAt p |}.
End ServiceRequest.

Module RequestAction.
Record t := mk { caregiverId : string; caregiverName : string;
                 caregiverEmail : string }.
End RequestAction.

Section Backend.
Context `{RT : Runtime}.

(** ** Values, documents, the database *)

Inductive value :=
| VStr (s : string)
| VNum (x : num)
| VOid (o : oid).

#[global] Instance value_eq_dec : EqDecision value.
Proof. solve_decision. Defined.

(** Python's [str] on the values a document holds. *)
Definition py_str (v : value) : string :=
  match v with
  | VStr s => s
  | VNum x => num_str x
  | VOid o => oid_str o
  end.

Abbreviation dict := (gmap string value).

Record database := Database {
  users : list dict;
  service_requests : list dict }.

Inductive collection := Users | ServiceRequests.

Definition docs (c : collection) (db : database) : list dict :=
  match c with Users => users db | ServiceRequests => service_requests db end.

Definition set_docs (c : collection) (l : list dict) (db : database) : database :=
  match c with
  | Users => {| users := l; service_requests := service_requests db |}
  | ServiceRequests => {| users := users db; service_requests := l |}
  end.

(** ** Exceptions and responses *)

Inductive exn :=
| HTTPException (status_code : nat) (detail : string)
| KeyError (key : string)
| PyMongoError (msg : string).

(** [str(e)] *)
Definition exn_str (e : exn) : string :=
  match e with
  | HTTPException c d => HTTPException_str c d
  | KeyError k => "'" +:+ k +:+ "'"
  | PyMongoError m => m
  end.

(** The JSON bodies the handlers return. *)
Inductive body :=
| Message (message : string)
| LoginBody (message : string) (user : dict)
| CreatedBody (message : string) (requestId : string)
| RequestsBody (requests : list dict).

(** ** The world outside one request

    What the driver and the clock do during one handler call: whether a
    read or a write raises (and with which message), whether an insert is
    acknowledged, the identifier the driver generates, and the readings
    of [datetime.now().isoformat()] in call order. *)
Record env := Env {
  read_fault : option string;
  write_fault : option string;
  acknowledged : bool;
  fresh_id : oid;
  now : nat → string }.

(** ** The monad of a handler body *)

Definition M (A : Type) : Type := database → (exn + A) * database.

Definition ret {A} (a : A) : M A := λ db, (inr a, db).
Definition raise {A} (e : exn) : M A := λ db, (inl e, db).
Definition bind {A B} (m : M A) (k : A → M B) : M B :=
  λ db, match m db with
        | (inl e, db') => (inl e, db')
        | (inr a, db') => k a db'
        end.
(** [try: m  except Exception as e: h e] *)
Definition try_except {A} (m : M A) (h : exn → M A) : M A :=
  λ db, match m db with
        | (inl e, db') => h e db'
        | (inr a, db') => (inr a, db')
        end.

Notation "'do' x <~ m ; k" := (bind m (λ x, k))
  (at level 10, x name, m at level 100, k at level 200).

Fixpoint for_each {A B} (f : A → M B) (l : list A) : M (list B) :=
  match l with
  | [] => ret []
  | x :: l' => do y <~ f x ; do ys <~ for_each f l' ; ret (y :: ys)
  end.

(** ** The driver *)

(** The filter [{k: v}]. *)
Definition matches (k : string) (v : value) (d : dict) : bool :=
  bool_decide (d !! k = Some v).

Definition find_one (e : env) (c : collection) (k : string) (v : value)
  : M (option dict) :=
  λ db, match read_fault e with
        | Some m => (inl (PyMongoError m), db)
        | None => (inr (List.find (matches k v) (docs c db)), db)
        end.

(** [insert_one]: the driver adds a generated [_id] when the document has
    none; the result carries [acknowledged] and [inserted_id].  A call that
    raises writes nothing, and an insert the store refuses (an [_id] already
    in the collection) is such a call, so [write_fault e = None] says the
    store took the document; a write that is sent is applied whether or not
    it is acknowledged. *)
Definition insert_one (e : env) (c : collection) (d : dict)
  : M (bool * value) :=
  λ db, match write_fault e with
        | Some m => (inl (PyMongoError m), db)
        | None =>
            let i := default (VOid (fresh_id e)) (d !! "_id") in
            (inr (acknowledged e, i),
             set_docs c (docs c db ++ [<["_id" := i]> d]) db)
        end.

(** BSON order on a sort key: a missing field sorts as null, below
    numbers, below strings, below identifiers. *)
Definition bson_rank (k : option value) : nat :=
  match k with
  | None => 0
  | Some (VNum _) => 1
  | Some (VStr _) => 2
  | Some (VOid _) => 3
  end.

Definition bson_leb (a b : option value) : bool :=
  match a, b with
  | Some (VStr x), Some (VStr y) => String.leb x y
  | Some (VNum x), Some (VNum y) => num_leb x y
  | Some (VOid x), Some (VOid y) => oid_leb x y
  | _, _ => Nat.leb (bson_rank a) (bson_rank b)
  end.

(** [d1] may come before [d2] in [.sort(k, -1)]. *)
Definition desc_by (k : string) (d1 d2 : dict) : Prop :=
  bson_leb (d2 !! k) (d1 !! k).

#[global] Instance desc_by_dec k d1 d2 : Decision (desc_by k d1 d2).
Proof. unfold desc_by. apply _. Defined.

(** [find({k: v}).sort(sk, -1)], read to the end. *)
Definition find_sorted_desc (e : env) (c : collection) (k : string)
    (v : value) (sk : string) : M (list dict) :=
  λ db, match read_fault e with
        | Some m => (inl (PyMongoError m), db)
        | None =>
            (inr (merge_sort (desc_by sk)
                    (List.filter (matches k v) (docs c db))), db)
        end.

(** [$set] on the first document the filter selects. *)
Fixpoint update_first (p : dict → bool) (upd : dict) (l : list dict)
  : list dict * nat :=
  match l with
  | [] => ([], 0)
  | d :: l' =>
      if p d then ((upd ∪ d) :: l', 1)
      else let '(l'', n) := update_first p upd l' in (d :: l'', n)
  end.

(** pymongo's [UpdateResult]. *)
Record UpdateResult := {
  result_acknowledged : bool;
  result_matched : nat }.

(** [result.matched_count]: the property raises [InvalidOperation] on the
    result of an unacknowledged write. *)
Definition matched_count (result : UpdateResult) : M nat :=
  if result_acknowledged result then ret (result_matched result)
  else raise (PyMongoError (InvalidOperation_str "matched_count")).

(** [update_one({k: v}, {"$set": upd})].  A call that raises writes
    nothing; an update that is sent is applied whether or not it is
    acknowledged. *)
Definition update_one (e : env) (c : collection) (k : string) (v : value)
    (upd : dict) : M UpdateResult :=
  λ db, match write_fault e with
        | Some m => (inl (PyMongoError m), db)
        | None =>
            let '(l, n) := update_first (matches k v) upd (docs c db) in
            (inr {| result_acknowledged := acknowledged e;
                    result_matched := n |},
             set_docs c l db)
        end.

(** Truth value of [find_one]'s result: [None] and the empty dictionary
    are false. *)
Definition truthy (o : option dict) : bool :=
  match o with
  | None => false
  | Some d => negb (bool_decide (d = ∅))
  end.

(** [d[k]] *)
Definition getitem (d : dict) (k : string) : M value :=
  match d !! k with
  | Some v => ret v
  | None => raise (KeyError k)
  end.

(** ** main.py *)

Definition signup (e : env) (user : UserSignup.t) : M body :=
  try_except
    (do existing_user <~ find_one e Users "email" (VStr (UserSignup.email user)) ;
     if truthy existing_user then
       raise (HTTPException 409
         "Email already registered. Please use a different email or login to your existing account.")
     else
       let user_data : dict :=
         <["name" := VStr (UserSignup.name user)]>
         (<["email" := VStr (UserSignup.email user)]>
         (<["password" := VStr (UserSignup.password user)]>
         (<["dob" := VStr (UserSignup.dob user)]>
         (<["role" := VStr (UserSignup.role user)]> ∅)))) in
       do result <~ insert_one e Users user_data ;
       if result.1 then ret (Message "Account created successfully!")
       else raise (HTTPException 500 "Signup failed"))
    (λ ex, match ex with
           | HTTPException _ _ => raise ex
           | _ => raise (HTTPException 500 "Signup failed due to server error")
           end).

Definition login (e : env) (user : UserLogin.t) : M body :=
  try_except
    (do existing_user <~ find_one e Users "email" (VStr (UserLogin.email user)) ;
     match existing_user with
     | Some d =>
         if truthy existing_user then
           do stored <~ getitem d "password" ;
           if bool_decide (stored ≠ VStr (UserLogin.password user)) then
             raise (HTTPException 401 "Incorrect password. Please try again.")
           else
             do i <~ getitem d "_id" ;
             do n <~ getitem d "name" ;
             do m <~ getitem d "email" ;
             do r <~ getitem d "role" ;
             do b <~ getitem d "dob" ;
             ret (LoginBody "Login successful!"
                    (<["id" := VStr (py_str i)]>
                    (<["name" := n]>
                    (<["email" := m]>
                    (<["role" := r]>
                    (<["dob" := b]> ∅))))))
         else
           raise (HTTPException 404
             "User not found. Please check your email or sign up.")
     | None =>
         raise (HTTPException 404
           "User not found. Please check your email or sign up.")
     end)
    (λ ex, match ex with
           | HTTPException _ _ => raise ex
           | _ => raise (HTTPException 500 "Login failed due to server error")
           end).

Definition create_service_request (e : env) (request : ServiceRequest.t)
  : M body :=
  try_except
    (let request_data : dict :=
       <["userId" := VStr (ServiceRequest.userId request)]>
       (<["userName" := VStr (ServiceRequest.userName request)]>
       (<["userEmail" := VStr (ServiceRequest.userEmail request)]>
       (<["serviceType" := VStr (ServiceRequest.serviceType request)]>
       (<["requirements" := VStr (ServiceRequest.requirements request)]>
       (<["cost" := VNum (ServiceRequest.cost request)]>
       (<["status" := VStr (ServiceRequest.status request)]>
       (<["createdAt" := VStr (ServiceRequest.createdAt request)]>
       (<["updatedAt" := VStr (now e 0)]> ∅)))))))) in
     do result <~ insert_one e ServiceRequests request_data ;
     if result.1 then
       ret (CreatedBody "Service request created successfully!"
              (py_str result.2))
     else raise (HTTPException 500 "Failed to create service request"))
    (λ ex, raise (HTTPException 500
                    ("Failed to create service request: " +:+ exn_str ex))).

(** The loop body of [get_pending_requests]. *)
Definition surface_id (request : dict) : M dict :=
  do i <~ getitem request "_id" ;
  ret (delete "_id" (<["id" := VStr (py_str i)]> request)).

Definition get_pending_requests (e : env) : M body :=
  try_except
    (do cursor <~ find_sorted_desc e ServiceRequests "status" (VStr "pending")
                "createdAt" ;
     do requests <~ for_each surface_id cursor ;
     ret (RequestsBody requests))
    (λ ex, raise (HTTPException 500 "Failed to fetch service requests")).

Definition handle_request_action (e : env) (request_id action : string)
    (caregiver_data : RequestAction.t) : M body :=
  try_except
    (if negb (bool_decide (action ∈ ["approve"; "reject"])) then
       raise (HTTPException 400 "Invalid action. Use 'approve' or 'reject'")
     else
       match ObjectId request_id with
       | None => raise (HTTPException 400 "Invalid request ID format")
       | Some obj_id =>
           let status :=
             if bool_decide (action = "approve") then "approved"
             else "rejected" in
           let update_data : dict :=
             <["status" := VStr status]>
             (<["caregiverId" := VStr (RequestAction.caregiverId caregiver_data)]>
             (<["caregiverName" := VStr (RequestAction.caregiverName caregiver_data)]>
             (<["caregiverEmail" := VStr (RequestAction.caregiverEmail caregiver_data)]>
             (<["processedAt" := VStr (now e 0)]>
             (<["updatedAt" := VStr (now e 1)]> ∅))))) in
           do result <~ update_one e ServiceRequests "_id" (VOid obj_id)
                      update_data ;
           do matched <~ matched_count result ;
           if bool_decide (matched ≠ 0) then
             ret (Message ("Request " +:+ status +:+ " successfully!"))
           else raise (HTTPException 404 "Service request not found")
       end)
    (λ ex, match ex with
           | HTTPException _ _ => raise ex
           | _ => raise (HTTPException 500
                           ("Failed to process service request: "
                            +:+ exn_str ex))
           end).

(** ** The HTTP surface as a transition system *)

Inductive request :=
| PostSignup (user : UserSignup.t)
| PostLogin (user : UserLogin.t)
| PostServiceRequest (p : ServiceRequest.payload)
| GetPending
| PatchServiceRequest (request_id action : string)
    (caregiver_data : RequestAction.t).

Definition serve (e : env) (r : request) : M body :=
  match r with
  | PostSignup user => signup e user
  | PostLogin user => login e user
  | PostServiceRequest p =>
      create_service_request e (ServiceRequest.of_payload p)
  | GetPending => get_pending_requests e
  | PatchServiceRequest request_id action caregiver_data =>
      handle_request_action e request_id action caregiver_data
  end.

(** The database after a sequence of requests, served one after the
    other. *)
Fixpoint serve_all (l : list (env * request)) (db : database) : database :=
  match l with
  | [] => db
  | (e, r) :: l' => serve_all l' (serve e r db).2
  end.

(** ** Predicates the properties are stated with *)

(** The status values of the data model. *)
Definition status_known (d : dict) : Prop :=
  d !! "status" = Some (VStr "pending")
  ∨ d !! "status" = Some (VStr "approved")
  ∨ d !! "status" = Some (VStr "rejected").

#[global] Instance status_known_dec d : Decision (status_known d).
Proof. unfold status_known. apply _. Defined.

(** A request that does not ask for a status outside the data model:
    creation stores the status of the body as it comes. *)
Definition asks_known_status (r : request) : Prop :=
  match r with
  | PostServiceRequest p =>
      ServiceRequest.p_status p = None
      ∨ ServiceRequest.p_status p = Some "pending"
      ∨ ServiceRequest.p_status p = Some "approved"
      ∨ ServiceRequest.p_status p = Some "rejected"
  | _ => True
  end.

(** A document with the fields [signup] writes and the store's [_id]. *)
Definition user_document (d : dict) : Prop :=
  is_Some (d !! "_id") ∧ is_Some (d !! "name") ∧ is_Some (d !! "email")
  ∧ is_Some (d !! "password") ∧ is_Some (d !! "dob")
  ∧ is_Some (d !! "role").

(** The status an action leads to, and the fields written with it: the
    local [status] and [update_data] of [handle_request_action]. *)
Definition decided_status (action : string) : string :=
  if bool_decide (action = "approve") then "approved" else "rejected".

Definition decision (e : env) (action : string)
    (caregiver_data : RequestAction.t) : dict :=
  <["status" := VStr (decided_status action)]>
  (<["caregiverId" := VStr (RequestAction.caregiverId caregiver_data)]>
  (<["caregiverName" := VStr (RequestAction.caregiverName caregiver_data)]>
  (<["caregiverEmail" := VStr (RequestAction.caregiverEmail caregiver_data)]>
  (<["processedAt" := VStr (now e 0)]>
  (<["updatedAt" := VStr (now e 1)]> ∅))))).

(** The fields an approve or reject writes. *)
Definition action_fields : list string :=
  ["status"; "caregiverId"; "caregiverName"; "caregiverEmail";
   "processedAt"; "updatedAt"].

(** A stored request as [get_pending_requests] returns it: the identifier
    as a string under [id], no [_id]. *)
Definition surfaced (d : dict) : dict :=
  delete "_id" (<["id" := VStr (from_option py_str "" (d !! "_id"))]> d).

(** A failure response does not depend on the driver's message. *)
Definition generic_failure (h : string → (exn + body)) : Prop :=
  ∃ detail, ∀ msg, h msg = inl (HTTPException 500 detail).

(** ** More vocabulary for the properties *)

(** The database before any request. *)
Definition initial : database := {| users := []; service_requests := [] |}.

(** The document [signup] hands to the driver, and the one the driver
    stores for it. *)
Definition user_data (user : UserSignup.t) : dict :=
  <["name" := VStr (UserSignup.name user)]>
  (<["email" := VStr (UserSignup.email user)]>
  (<["password" := VStr (UserSignup.password user)]>
  (<["dob" := VStr (UserSignup.dob user)]>
  (<["role" := VStr (UserSignup.role user)]> ∅)))).

Definition stored_user (e : env) (user : UserSignup.t) : dict :=
  <["_id" := VOid (fresh_id e)]> (user_data user).

(** The document [create_service_request] hands to the driver, and the one
    the driver stores for it. *)
Definition request_data (e : env) (request : ServiceRequest.t) : dict :=
  <["userId" := VStr (ServiceRequest.userId request)]>
  (<["userName" := VStr (ServiceRequest.userName request)]>
  (<["userEmail" := VStr (ServiceRequest.userEmail request)]>
  (<["serviceType" := VStr (ServiceRequest.serviceType request)]>
  (<["requirements" := VStr (ServiceRequest.requirements request)]>
  (<["cost" := VNum (ServiceRequest.cost request)]>
  (<["status" := VStr (ServiceRequest.status request)]>
  (<["createdAt" := VStr (ServiceRequest.createdAt request)]>
  (<["updatedAt" := VStr (now e 0)]> ∅)))))))).

Definition stored_request (e : env) (request : ServiceRequest.t) : dict :=
  <["_id" := VOid (fresh_id e)]> (request_data e request).

(** The email and identifier columns of the two collections. *)
Definition emails (db : database) : list (option value) :=
  (λ d, d !! "email") <$> users db.

Definition request_ids (db : database) : list (option value) :=
  (λ d, d !! "_id") <$> service_requests db.

(** How many stored requests the listing's filter selects. *)
Definition pending_count (db : database) : nat :=
  length (List.filter (matches "status" (VStr "pending"))
            (service_requests db)).

(** The status codes each route raises in the source. *)
Definition raised_codes (r : request) : list nat :=
  match r with
  | PostSignup _ => [409; 500]
  | PostLogin _ => [404; 401; 500]
  | PostServiceRequest _ => [500]
  | GetPending => [500]
  | PatchServiceRequest _ _ _ => [400; 404; 500]
  end.

(** A handler's outcome is a body or an [HTTPException] with one of the
    given codes. *)
Definition answers_within (codes : list nat) (r : exn + body) : Prop :=
  match r with
  | inr _ => True
  | inl (HTTPException c _) => c ∈ codes
  | inl _ => False
  end.

End Backend.

(** ** A concrete runtime, for running the handlers on examples *)

Module Sample.

Definition is_hex (a : Ascii.ascii) : bool :=
  let n := Ascii.nat_of_ascii a in
  (Nat.leb 48 n && Nat.leb n 57) || (Nat.leb 97 n && Nat.leb n 102)
  || (Nat.leb 65 n && Nat.leb n 70).

(** Hexadecimal digits in lower case, as [str] of an identifier shows
    them. *)
Definition lower_hex (a : Ascii.ascii) : Ascii.ascii :=
  let n := Ascii.nat_of_ascii a in
  if Nat.leb 65 n && Nat.leb n 70 then Ascii.ascii_of_nat (n + 32) else a.

(** Identifiers written as 24 hexadecimal digits, in either case. *)
Definition parse_oid (s : string) : option string :=
  if Nat.eqb (String.length s) 24 && forallb is_hex (String.list_ascii_of_string s)
  then Some (String.string_of_list_ascii
               (List.map lower_hex (String.list_ascii_of_string s)))
  else None.

#[local] Instance runtime : Runtime := {|
  oid := string;
  num := Z;
  ObjectId := parse_oid;
  oid_str := λ o, o;
  num_str := λ _, "0.0";
  oid_leb := String.leb;
  num_leb := Z.leb;
  HTTPException_str :=
    λ c d, NilEmpty.string_of_uint (Nat.to_uint c) +:+ ": " +:+ d;
  InvalidOperation_str :=
    λ property,
      "A value for " +:+ property
      +:+ " is not available when the write is unacknowledged. Check the acknowledged attribute to avoid this error."
|}.

Definition quiet : env :=
  {| read_fault := None; write_fault := None; acknowledged := true;
     fresh_id := "65f0c0ffee0123456789abcd";
     now := λ n, match n with
                 | 0 => "2024-03-01T10:00:00.000001"
                 | _ => "2024-03-01T10:00:00.000002"
                 end |}.

(** The driver raising [msg] on every call. *)
Definition failing (msg : string) : env :=
  {| read_fault := Some msg; write_fault := Some msg;
     acknowledged := true; fresh_id := fresh_id quiet; now := now quiet |}.

Definition empty_db : database := {| users := []; service_requests := [] |}.

Definition alice : UserSignup.t :=
  UserSignup.mk "A" "a@x.com" "p" "2000-01-01" "family".

Definition one_user : database := (signup quiet alice empty_db).2.

Definition ask (st : option string) (at_ : string) : ServiceRequest.payload :=
  {| ServiceRequest.p_userId := "u1"; ServiceRequest.p_userName := "A";
     ServiceRequest.p_userEmail := "a@x.com";
     ServiceRequest.p_serviceType := "nursing";
     ServiceRequest.p_requirements := "daily visit";
     ServiceRequest.p_cost := 120%Z;
     ServiceRequest.p_status := st; ServiceRequest.p_createdAt := at_ |}.

Definition carer_a : RequestAction.t :=
  RequestAction.mk "c1" "Carer A" "ca@x.com".
Definition carer_b : RequestAction.t :=
  RequestAction.mk "c2" "Carer B" "cb@x.com".

Definition one_request : database :=
  (create_service_request quiet
     (ServiceRequest.of_payload (ask None "2024-02-01")) empty_db).2.

Definition request_id : string := "65f0c0ffee0123456789abcd".

(** The identifier of the stored request, and one no request carries. *)
Definition stored_oid : @oid runtime := request_id.
Definition absent_oid : @oid runtime := "65f0c0ffee0123456789ab99".

Definition alice_doc : gmap string value := hd ∅ (users one_user).
Definition request_doc : gmap string value :=
  hd ∅ (service_requests one_request).

(** The driver generating the identifier [i]. *)
Definition generating (i : string) : env :=
  {| read_fault := None; write_fault := None; acknowledged := true;
     fresh_id := i; now := now quiet |}.

(** Three requests created in turn, the second one then approved. *)
Definition history : list (env * request) :=
  [(generating "65f0c0ffee0123456789ab01",
    PostServiceRequest (ask None "2024-02-01"));
   (generating "65f0c0ffee0123456789ab02",
    PostServiceRequest (ask (Some "pending") "2024-02-03"));
   (generating "65f0c0ffee0123456789ab03",
    PostServiceRequest (ask None "2024-02-02"));
   (quiet,
    PatchServiceRequest "65f0c0ffee0123456789ab02" "approve" carer_a)].

Definition after_history : database := serve_all history empty_db.

(** A creation whose body asks for a status outside the data model. *)
Definition odd_history : list (env * request) :=
  [(quiet, PostServiceRequest (ask (Some "done") "2024-02-01"))].

(** The store accepting writes without acknowledging them. *)
Definition unacknowledging : env :=
  {| read_fault := None; write_fault := None; acknowledged := false;
     fresh_id := fresh_id quiet; now := now quiet |}.

(** A user document written by other means, without a password. *)
Definition legacy_doc : gmap string value :=
  <["_id" := VOid absent_oid]> (<["email" := VStr "old@x.com"]> ∅).

Definition legacy_db : database :=
  {| users := [legacy_doc]; service_requests := [] |}.

Definition bob : UserSignup.t :=
  UserSignup.mk "B" "b@x.com" "s3cret" "1950-05-05" "elder".

(** The driver when bob signs up: an identifier no stored user has. *)
Definition for_bob : env := generating "65f0c0ffee0123456789ab10".

(** One user and the three requests of [history], the second approved. *)
Definition busy : database :=
  serve_all ((quiet, PostSignup alice) :: history) empty_db.

Definition third_id : string := "65f0c0ffee0123456789ab03".
Definition third_oid : @oid runtime := third_id.

End Sample.

(** * Properties of the handlers *)

Section Properties.
Context `{RT : Runtime}.
Implicit Types (d upd : gmap string value) (l : list (gmap string value)).
Implicit Types (db : database) (e : env).

(** ** The driver's searches *)

Lemma matches_true k v d : matches k v d = true ↔ d !! k = Some v.
Proof. unfold matches. apply bool_decide_eq_true. Qed.

Lemma matches_false k v d : matches k v d = false ↔ d !! k ≠ Some v.
Proof. unfold matches. apply bool_decide_eq_false. Qed.

Lemma matches_truthy k v d : matches k v d = true → truthy (Some d) = true.
Proof.
  intros Hm%matches_true. simpl. apply negb_true_iff, bool_decide_eq_false.
  intros ->. by rewrite lookup_empty in Hm.
Qed.

Lemma find_hit (p : gmap string value → bool) l d :
  d ∈ l → p d = true → ∃ d', List.find p l = Some d' ∧ p d' = true.
Proof.
  induction 1 as [d l|d x l _ IH]; intros Hp; simpl.
  - rewrite Hp. eauto.
  - destruct (p x) eqn:Hx; eauto.
Qed.

Lemma find_miss (p : gmap string value → bool) l :
  (∀ d, d ∈ l → p d = false) → List.find p l = None.
Proof.
  induction l as [|x l IH]; intros Hall; simpl; [done|].
  rewrite (Hall x) by constructor.
  apply IH. intros d Hd. apply Hall. by constructor.
Qed.

Lemma find_Some_matches (p : gmap string value → bool) l d :
  List.find p l = Some d → d ∈ l ∧ p d = true.
Proof.
  intros [Hin Hp]%List.find_some. split; [|done]. by apply list_elem_of_In.
Qed.

Lemma set_docs_same c db : set_docs c (docs c db) db = db.
Proof. by destruct c, db. Qed.

(** ** Signup *)

(** C1: a signup whose email is already held by a stored user document
    leaves the database as it was, and fails with 409 Conflict whenever the
    lookup answers. *)
Theorem signup_existing_email_conflict e user db d :
  d ∈ users db →
  d !! "email" = Some (VStr (UserSignup.email user)) →
  (signup e user db).2 = db
  ∧ (read_fault e = None →
     (signup e user db).1 =
       inl (HTTPException 409
         "Email already registered. Please use a different email or login to your existing account.")).
Proof.
  intros Hin Hmail.
  destruct (find_hit (matches "email" (VStr (UserSignup.email user)))
              (users db) d Hin) as (d' & Hfind & Hd').
  { by apply matches_true. }
  unfold signup, try_except, bind, find_one.
  destruct (read_fault e) as [msg|]; simpl; [done|].
  rewrite Hfind. by rewrite (matches_truthy _ _ _ Hd').
Qed.

(** ** Login *)

Lemma login_read_only e user db : (login e user db).2 = db.
Proof.
  unfold login, try_except, bind, find_one, getitem, raise, ret.
  destruct (read_fault e); simpl; [done|].
  destruct (List.find _ _) as [d|]; simpl; [|done].
  destruct (bool_decide (d = ∅)); simpl; [done|].
  destruct (d !! "password"); simpl; [|done].
  case_bool_decide; simpl; [done|].
  repeat (match goal with
          | |- context [match ?m !! ?k with _ => _ end] =>
              destruct (m !! k); simpl; [|done]
          end).
  done.
Qed.

(** C2: login answers 404 when no stored user has the email, 401 when the
    user found stores a password different from the one supplied, and
    never changes the database. *)
Theorem login_failures e user db :
  (login e user db).2 = db
  ∧ (read_fault e = None →
     (∀ d, d ∈ users db →
           d !! "email" ≠ Some (VStr (UserLogin.email user))) →
     (login e user db).1 =
       inl (HTTPException 404
              "User not found. Please check your email or sign up."))
  ∧ (∀ d stored,
       read_fault e = None →
       List.find (matches "email" (VStr (UserLogin.email user))) (users db)
         = Some d →
       d !! "password" = Some stored →
       stored ≠ VStr (UserLogin.password user) →
       (login e user db).1 =
         inl (HTTPException 401 "Incorrect password. Please try again.")).
Proof.
  split; [apply login_read_only|]. split.
  - intros Hr Hnone.
    unfold login, try_except, bind, find_one. rewrite Hr. simpl.
    rewrite find_miss; [done|].
    intros d Hd. by apply matches_false, Hnone.
  - intros d stored Hr Hfind Hpw Hne.
    unfold login, try_except, bind, find_one, getitem. rewrite Hr. simpl.
    rewrite Hfind.
    apply find_Some_matches in Hfind as [_ Hm].
    rewrite (matches_truthy _ _ _ Hm), Hpw. simpl. by rewrite bool_decide_eq_true_2.
Qed.

(** C3: when the user found stores the supplied password, login returns a
    record with exactly the fields id, name, email, role and dob, the id
    being the string form of the stored identifier; there is no password
    field in it. *)
Theorem login_success_sanitized e user db d :
  read_fault e = None →
  List.find (matches "email" (VStr (UserLogin.email user))) (users db)
    = Some d →
  user_document d →
  d !! "password" = Some (VStr (UserLogin.password user)) →
  ∃ u, login e user db = (inr (LoginBody "Login successful!" u), db)
       ∧ dom u = list_to_set ["id"; "name"; "email"; "role"; "dob"]
       ∧ u !! "id" = (λ i, VStr (py_str i)) <$> d !! "_id"
       ∧ u !! "name" = d !! "name"
       ∧ u !! "email" = Some (VStr (UserLogin.email user))
       ∧ u !! "role" = d !! "role"
       ∧ u !! "dob" = d !! "dob"
       ∧ u !! "password" = None.
Proof.
  intros Hr Hfind (Hi & Hn & Hm & _ & Hb & Hro) Hpw.
  destruct Hi as [i Hi], Hn as [n Hn], Hb as [b Hb], Hro as [r Hro].
  pose proof Hfind as [_ Hmatch]%find_Some_matches.
  pose proof (matches_truthy _ _ _ Hmatch) as Ht.
  apply matches_true in Hmatch.
  eexists. split.
  { unfold login, try_except, bind, find_one, getitem. rewrite Hr. simpl.
    rewrite Hfind, Ht, Hpw. simpl.
    rewrite bool_decide_eq_false_2 by (by intros []).
    rewrite Hi. simpl. rewrite Hn. simpl. rewrite Hmatch. simpl.
    rewrite Hro. simpl. rewrite Hb. simpl. reflexivity. }
  rewrite Hi, Hn, Hro, Hb. simpl.
  split; [|by simplify_map_eq].
  rewrite !dom_insert_L, dom_empty_L. simpl. set_solver.
Qed.

(** ** Creating a service request *)

(** C4: a created request is stored with status pending when the body
    leaves status out, with the handler's own clock reading as updatedAt
    whatever the body holds, and an acknowledged insert answers with the
    generated identifier. *)
Theorem create_service_request_stored e p db :
  write_fault e = None →
  ∃ d,
    service_requests
      (create_service_request e (ServiceRequest.of_payload p) db).2
      = (service_requests db ++ [d])%list
    ∧ (ServiceRequest.p_status p = None →
       d !! "status" = Some (VStr "pending"))
    ∧ d !! "updatedAt" = Some (VStr (now e 0))
    ∧ d !! "_id" = Some (VOid (fresh_id e))
    ∧ (acknowledged e = true →
       (create_service_request e (ServiceRequest.of_payload p) db).1
         = inr (CreatedBody "Service request created successfully!"
                  (oid_str (fresh_id e)))).
Proof.
  intros Hw.
  unfold create_service_request, try_except, bind, insert_one.
  rewrite Hw. simpl.
  eexists. split.
  { destruct (acknowledged e); simpl; reflexivity. }
  split; [intros ->; by simplify_map_eq|].
  split; [by simplify_map_eq|].
  split; [by simplify_map_eq|].
  intros ->. simpl. by simplify_map_eq.
Qed.

(** ** Listing pending requests *)

Lemma bson_leb_total `{!RuntimeOrder} (a b : option value) :
  bson_leb a b = true ∨ bson_leb b a = true.
Proof.
  destruct a as [[x|x|x]|], b as [[y|y|y]|]; simpl; auto.
  - apply String.leb_total.
  - apply num_leb_total.
  - apply oid_leb_total.
Qed.

#[local] Instance desc_by_total `{!RuntimeOrder} k : Total (desc_by k).
Proof.
  intros d1 d2. unfold desc_by.
  destruct (bson_leb_total (d2 !! k) (d1 !! k)) as [->| ->]; simpl; auto.
Qed.

Lemma surfaced_lookup d k : k ≠ "id" → k ≠ "_id" → surfaced d !! k = d !! k.
Proof.
  intros Hid H_id. unfold surfaced.
  by rewrite lookup_delete_ne, lookup_insert_ne.
Qed.

Lemma for_each_surface_id l db :
  Forall (λ d, is_Some (d !! "_id")) l →
  for_each surface_id l db = (inr (surfaced <$> l), db).
Proof.
  induction 1 as [|d l [i Hi] _ IH]; [done|].
  simpl. unfold bind at 1. unfold surface_id at 1, bind at 1, getitem.
  rewrite Hi. simpl. unfold bind at 1. rewrite IH. simpl.
  unfold ret, surfaced. by rewrite Hi.
Qed.

(** C5: the listing answers with the stored requests whose status is
    pending, each with its identifier as a string under id and without
    _id, ordered by createdAt from the greatest to the least. *)
Theorem get_pending_requests_lists `{!RuntimeOrder} e db :
  read_fault e = None →
  Forall (λ d, is_Some (d !! "_id")) (service_requests db) →
  ∃ rs,
    get_pending_requests e db = (inr (RequestsBody rs), db)
    ∧ rs ≡ₚ surfaced <$>
             List.filter (matches "status" (VStr "pending"))
               (service_requests db)
    ∧ Sorted (desc_by "createdAt") rs
    ∧ Forall (λ r, r !! "status" = Some (VStr "pending")
                   ∧ r !! "_id" = None
                   ∧ ∃ s, r !! "id" = Some (VStr s)) rs.
Proof.
  intros Hr Hids.
  set (pending := List.filter (matches "status" (VStr "pending"))
                    (service_requests db)).
  set (sorted := merge_sort (desc_by "createdAt") pending).
  assert (Hperm : sorted ≡ₚ pending) by apply merge_sort_Permutation.
  assert (Hpending : Forall (λ d, is_Some (d !! "_id")
                                  ∧ d !! "status" = Some (VStr "pending"))
                       pending).
  { apply Forall_forall. intros d Hd.
    apply list_elem_of_In, List.filter_In in Hd as [Hd Hm].
    split; [|by apply matches_true].
    rewrite Forall_forall in Hids. by apply Hids, list_elem_of_In. }
  rewrite <- Hperm in Hpending.
  exists (surfaced <$> sorted). split; [|split; [|split]].
  - unfold get_pending_requests, try_except, bind, find_sorted_desc.
    rewrite Hr. simpl. fold pending. fold sorted.
    rewrite for_each_surface_id; [done|].
    eapply Forall_impl; [exact Hpending|]. by intros d [? _].
  - by rewrite Hperm.
  - apply (Sorted_fmap _ (desc_by "createdAt")).
    + intros x y. unfold desc_by. by rewrite !surfaced_lookup.
    + apply Sorted_merge_sort, _.
  - apply Forall_fmap. eapply Forall_impl; [exact Hpending|].
    intros d [_ Hs]. simpl. split; [|split].
    + by rewrite surfaced_lookup.
    + unfold surfaced. apply lookup_delete_eq.
    + unfold surfaced. rewrite lookup_delete_ne, lookup_insert_eq by done.
      eauto.
Qed.

(** ** Approving and rejecting *)

Lemma update_first_spec (p : gmap string value → bool) upd l :
  match List.find p l with
  | Some d =>
      ∃ i, l !! i = Some d
           ∧ update_first p upd l = (<[i := upd ∪ d]> l, 1)
           ∧ (p (upd ∪ d) = true →
              List.find p (<[i := upd ∪ d]> l) = Some (upd ∪ d))
  | None => update_first p upd l = (l, 0)
  end.
Proof.
  induction l as [|x l IH]; simpl; [done|].
  destruct (p x) eqn:Hx.
  - exists 0. simpl. split; [done|]. split; [done|]. by intros ->.
  - destruct (List.find p l) as [d|].
    + destruct IH as (i & Hi & -> & Hfind).
      exists (S i). simpl. rewrite Hx. auto.
    + by rewrite IH.
Qed.

Lemma decision_lookup_other e action cg k :
  k ∉ action_fields → decision e action cg !! k = None.
Proof.
  intros Hk. unfold decision.
  repeat (rewrite lookup_insert_ne;
          [|intros <-; apply Hk; unfold action_fields; set_solver]).
  apply lookup_empty.
Qed.

Lemma decision_frame e action cg d k :
  k ∉ action_fields → (decision e action cg ∪ d) !! k = d !! k.
Proof.
  intros Hk. by rewrite lookup_union_r by by apply decision_lookup_other.
Qed.

Lemma decision_written e action cg d k v :
  decision e action cg !! k = Some v → (decision e action cg ∪ d) !! k = Some v.
Proof. apply lookup_union_Some_l. Qed.

Lemma action_allowed (action : string) :
  action ∈ ["approve"; "reject"] →
  negb (bool_decide (action ∈ ["approve"; "reject"])) = false.
Proof. intros H. by rewrite bool_decide_eq_true_2. Qed.

(** The first document the filter selects is the one [update_first]
    rewrites. *)
Lemma update_first_at (p : gmap string value → bool) upd l d :
  List.find p l = Some d →
  ∃ i, l !! i = Some d
       ∧ (∀ j x, j < i → l !! j = Some x → p x = false)
       ∧ update_first p upd l = (<[i := upd ∪ d]> l, 1).
Proof.
  induction l as [|x l IH]; simpl; [done|].
  destruct (p x) eqn:Hx.
  - intros [= ->]. exists 0. split; [done|]. split; [|done]. intros; lia.
  - intros Hfind. destruct (IH Hfind) as (i & Hi & Hbefore & ->).
    exists (S i). split; [done|]. split; [|done].
    intros [|j] y Hj Hy; simplify_eq/=; [done|].
    apply (Hbefore j); [lia|done].
Qed.

(** What the handler does once the action and the identifier are
    accepted and the driver takes the update: the update is applied, and
    the answer depends on whether the write was acknowledged. *)
Lemma handle_request_action_run e request_id action cg db o :
  action ∈ ["approve"; "reject"] →
  ObjectId request_id = Some o →
  write_fault e = None →
  handle_request_action e request_id action cg db =
    (if acknowledged e then
       match List.find (matches "_id" (VOid o)) (service_requests db) with
       | Some _ =>
           inr (Message ("Request " +:+ decided_status action
                         +:+ " successfully!"))
       | None => inl (HTTPException 404 "Service request not found")
       end
     else
       inl (HTTPException 500
              ("Failed to process service request: "
               +:+ InvalidOperation_str "matched_count")),
     {| users := users db;
        service_requests :=
          (update_first (matches "_id" (VOid o))
             (decision e action cg) (service_requests db)).1 |}).
Proof.
  intros Hact Ho Hw.
  unfold handle_request_action, try_except. rewrite (action_allowed _ Hact).
  rewrite Ho. unfold bind, update_one, matched_count. rewrite Hw. simpl.
  fold (decided_status action). fold (decision e action cg).
  pose proof (update_first_spec (matches "_id" (VOid o))
                (decision e action cg) (service_requests db)) as Hspec.
  destruct (List.find _ _) as [d|].
  - destruct Hspec as (i & _ & -> & _). simpl. by destruct (acknowledged e).
  - rewrite Hspec. simpl. by destruct (acknowledged e).
Qed.

Lemma handle_request_action_update e request_id action cg db o :
  action ∈ ["approve"; "reject"] →
  ObjectId request_id = Some o →
  write_fault e = None →
  acknowledged e = true →
  handle_request_action e request_id action cg db =
    match List.find (matches "_id" (VOid o)) (service_requests db) with
    | Some _ =>
        (inr (Message ("Request " +:+ decided_status action
                       +:+ " successfully!")),
         {| users := users db;
            service_requests :=
              (update_first (matches "_id" (VOid o))
                 (decision e action cg) (service_requests db)).1 |})
    | None => (inl (HTTPException 404 "Service request not found"), db)
    end.
Proof.
  intros Hact Ho Hw Hack.
  rewrite (handle_request_action_run _ _ _ _ _ o) by done. rewrite Hack.
  pose proof (update_first_spec (matches "_id" (VOid o))
                (decision e action cg) (service_requests db)) as Hspec.
  destruct (List.find _ _) as [d|]; [done|].
  rewrite Hspec. simpl. by destruct db.
Qed.

(** The stored effect of an update the driver takes, acknowledged or not:
    the first request with the identifier gets the decision's fields. *)
Lemma handle_request_action_writes e request_id action cg db o d :
  action ∈ ["approve"; "reject"] →
  ObjectId request_id = Some o →
  write_fault e = None →
  List.find (matches "_id" (VOid o)) (service_requests db) = Some d →
  ∃ i,
    service_requests db !! i = Some d
    ∧ (∀ j x, j < i → service_requests db !! j = Some x →
              x !! "_id" ≠ Some (VOid o))
    ∧ (handle_request_action e request_id action cg db).2 =
        {| users := users db;
           service_requests :=
             <[i := decision e action cg ∪ d]> (service_requests db) |}.
Proof.
  intros Hact Ho Hw Hfind.
  rewrite (handle_request_action_run _ _ _ _ _ o) by done. simpl.
  destruct (update_first_at (matches "_id" (VOid o)) (decision e action cg)
              (service_requests db) d Hfind) as (i & Hi & Hbefore & ->).
  exists i. split; [done|]. split; [|done].
  intros j x Hj Hx. by apply matches_false, (Hbefore j).
Qed.

Lemma handle_request_action_hit e request_id action cg db o d :
  action ∈ ["approve"; "reject"] →
  ObjectId request_id = Some o →
  write_fault e = None →
  acknowledged e = true →
  List.find (matches "_id" (VOid o)) (service_requests db) = Some d →
  ∃ i,
    service_requests db !! i = Some d
    ∧ handle_request_action e request_id action cg db =
        (inr (Message ("Request " +:+ decided_status action
                       +:+ " successfully!")),
         {| users := users db;
            service_requests :=
              <[i := decision e action cg ∪ d]> (service_requests db) |})
    ∧ List.find (matches "_id" (VOid o))
        (<[i := decision e action cg ∪ d]> (service_requests db))
        = Some (decision e action cg ∪ d).
Proof.
  intros Hact Ho Hw Hack Hfind.
  rewrite (handle_request_action_update _ _ _ _ _ o) by done.
  pose proof (update_first_spec (matches "_id" (VOid o))
                (decision e action cg) (service_requests db)) as Hspec.
  rewrite Hfind in *.
  destruct Hspec as (i & Hi & -> & Hagain).
  exists i. split; [done|]. split; [done|].
  apply Hagain, matches_true.
  apply find_Some_matches in Hfind as [_ Hm%matches_true].
  rewrite decision_frame; [done|].
  unfold action_fields. rewrite !not_elem_of_cons.
  repeat split; try done. apply not_elem_of_nil.
Qed.

(** C6: an action other than approve and reject is refused with 400 and
    nothing is written; an identifier the store cannot parse is refused
    with 400; on an acknowledged update, an identifier no stored request
    carries gives 404, and otherwise the request found gets status approved
    for approve and rejected for reject, and the handler reports success. *)
Theorem handle_request_action_outcomes e request_id action cg db :
  (action ∉ ["approve"; "reject"] →
   handle_request_action e request_id action cg db =
     (inl (HTTPException 400 "Invalid action. Use 'approve' or 'reject'"),
      db))
  ∧ (action ∈ ["approve"; "reject"] →
     ObjectId request_id = None →
     handle_request_action e request_id action cg db =
       (inl (HTTPException 400 "Invalid request ID format"), db))
  ∧ (∀ o,
       action ∈ ["approve"; "reject"] →
       ObjectId request_id = Some o →
       write_fault e = None →
       acknowledged e = true →
       (∀ d, d ∈ service_requests db → d !! "_id" ≠ Some (VOid o)) →
       handle_request_action e request_id action cg db =
         (inl (HTTPException 404 "Service request not found"), db))
  ∧ (∀ o d st,
       (action = "approve" ∧ st = "approved"
        ∨ action = "reject" ∧ st = "rejected") →
       ObjectId request_id = Some o →
       write_fault e = None →
       acknowledged e = true →
       d ∈ service_requests db →
       d !! "_id" = Some (VOid o) →
       ∃ d',
         (handle_request_action e request_id action cg db).1 =
           inr (Message ("Request " +:+ st +:+ " successfully!"))
         ∧ List.find (matches "_id" (VOid o))
             (service_requests
                (handle_request_action e request_id action cg db).2)
             = Some d'
         ∧ d' !! "status" = Some (VStr st)).
Proof.
  split; [|split; [|split]].
  - intros Hact. unfold handle_request_action, try_except.
    by rewrite bool_decide_eq_false_2.
  - intros Hact Ho. unfold handle_request_action, try_except.
    rewrite (action_allowed _ Hact). by rewrite Ho.
  - intros o Hact Ho Hw Hack Hnone.
    rewrite (handle_request_action_update _ _ _ _ _ o) by done.
    rewrite find_miss; [done|].
    intros d Hd. by apply matches_false, Hnone.
  - intros o d st Hst Ho Hw Hack Hin Hid.
    destruct (find_hit (matches "_id" (VOid o)) (service_requests db) d)
      as (d0 & Hfind & _); [done|by apply matches_true|].
    assert (action ∈ ["approve"; "reject"] ∧ decided_status action = st)
      as [Hact <-].
    { destruct Hst as [[-> ->]|[-> ->]]; split; try done;
        by repeat constructor. }
    destruct (handle_request_action_hit e request_id action cg db o d0)
      as (i & _ & -> & Hagain); try done.
    eexists. split; [done|]. split; [exact Hagain|].
    by apply decision_written.
Qed.

(** C7: approve with one caregiver and then reject with another, on the
    same stored request and with both updates acknowledged, both succeed;
    the request ends with status rejected and the second caregiver's id,
    name and email. *)
Theorem approve_then_reject_overwrites e1 e2 request_id o a b db d :
  ObjectId request_id = Some o →
  write_fault e1 = None →
  acknowledged e1 = true →
  write_fault e2 = None →
  acknowledged e2 = true →
  d ∈ service_requests db →
  d !! "_id" = Some (VOid o) →
  let first := handle_request_action e1 request_id "approve" a db in
  let second := handle_request_action e2 request_id "reject" b first.2 in
  first.1 = inr (Message "Request approved successfully!")
  ∧ second.1 = inr (Message "Request rejected successfully!")
  ∧ ∃ d',
      List.find (matches "_id" (VOid o)) (service_requests second.2)
        = Some d'
      ∧ d' !! "status" = Some (VStr "rejected")
      ∧ d' !! "caregiverId" = Some (VStr (RequestAction.caregiverId b))
      ∧ d' !! "caregiverName" = Some (VStr (RequestAction.caregiverName b))
      ∧ d' !! "caregiverEmail"
          = Some (VStr (RequestAction.caregiverEmail b)).
Proof.
  intros Ho Hw1 Hack1 Hw2 Hack2 Hin Hid first second.
  destruct (find_hit (matches "_id" (VOid o)) (service_requests db) d)
    as (d0 & Hfind & _); [done|by apply matches_true|].
  destruct (handle_request_action_hit e1 request_id "approve" a db o d0)
    as (i & _ & Hfirst & Hagain); try done; [by repeat constructor|].
  subst second first. rewrite Hfirst. simpl.
  destruct (handle_request_action_hit e2 request_id "reject" b
              {| users := users db;
                 service_requests :=
                   <[i := decision e1 "approve" a ∪ d0]>
                     (service_requests db) |} o
              (decision e1 "approve" a ∪ d0))
    as (j & _ & -> & Hthen); try done; [by repeat constructor|].
  split; [done|]. split; [done|].
  eexists. split; [exact Hthen|].
  repeat split; by apply decision_written.
Qed.

(** C10: a successful approve or reject rewrites the first stored request
    that carries the identifier of the call, and only that one: the new
    document keeps the identifier and differs from the old one at most in
    status, caregiverId, caregiverName, caregiverEmail, processedAt and
    updatedAt; every other request, at every other position, and the users
    collection stay as they were. *)
Theorem handle_request_action_frame e request_id action cg db reply :
  (handle_request_action e request_id action cg db).1 = inr reply →
  ∃ o i d d',
    ObjectId request_id = Some o
    ∧ service_requests db !! i = Some d
    ∧ d !! "_id" = Some (VOid o)
    ∧ (∀ j x, j < i → service_requests db !! j = Some x →
              x !! "_id" ≠ Some (VOid o))
    ∧ service_requests (handle_request_action e request_id action cg db).2
        = <[i := d']> (service_requests db)
    ∧ (∀ j, j ≠ i →
            service_requests
              (handle_request_action e request_id action cg db).2 !! j
            = service_requests db !! j)
    ∧ users (handle_request_action e request_id action cg db).2 = users db
    ∧ d' !! "_id" = Some (VOid o)
    ∧ ∀ k, k ∉ action_fields → d' !! k = d !! k.
Proof.
  intros Hok.
  destruct (decide (action ∈ ["approve"; "reject"])) as [Hact|Hact]; cycle 1.
  { unfold handle_request_action, try_except in Hok.
    by rewrite bool_decide_eq_false_2 in Hok. }
  destruct (ObjectId request_id) as [o|] eqn:Ho; cycle 1.
  { unfold handle_request_action, try_except in Hok.
    rewrite (action_allowed _ Hact), Ho in Hok. done. }
  destruct (write_fault e) as [msg|] eqn:Hw.
  { unfold handle_request_action, try_except, bind, update_one in Hok.
    rewrite (action_allowed _ Hact), Ho, Hw in Hok. done. }
  rewrite (handle_request_action_run _ _ _ _ _ o) in Hok by done.
  simpl in Hok.
  destruct (acknowledged e) eqn:Hack; [|done].
  destruct (List.find (matches "_id" (VOid o)) (service_requests db))
    as [d|] eqn:Hfind; [|done].
  destruct (handle_request_action_writes e request_id action cg db o d)
    as (i & Hi & Hbefore & ->); try done.
  pose proof Hfind as [_ Hid%matches_true]%find_Some_matches.
  assert (Hkeep : "_id" ∉ action_fields).
  { unfold action_fields. rewrite !not_elem_of_cons.
    repeat split; try done. apply not_elem_of_nil. }
  exists o, i, d, (decision e action cg ∪ d). simpl.
  split; [done|]. split; [done|]. split; [done|]. split; [done|].
  split; [done|]. split.
  { intros j Hj. by rewrite list_lookup_insert_ne. }
  split; [done|]. split.
  { by rewrite decision_frame. }
  intros k Hk. by apply decision_frame.
Qed.

(** ** What each handler may do to the database *)

Lemma signup_effect e user db :
  (signup e user db).2 = db
  ∨ ∃ d, user_document d
         ∧ (signup e user db).2 =
             {| users := users db ++ [d];
                service_requests := service_requests db |}.
Proof.
  unfold signup, try_except, bind, find_one, insert_one.
  destruct (read_fault e); simpl; [by left|].
  destruct (truthy _); simpl; [by left|].
  destruct (write_fault e); simpl; [by left|].
  right. eexists. split; cycle 1.
  { destruct (acknowledged e); simpl; reflexivity. }
  simpl. unfold user_document. by simplify_map_eq.
Qed.

Lemma create_service_request_effect e request db :
  (create_service_request e request db).2 = db
  ∨ ∃ d, d !! "status" = Some (VStr (ServiceRequest.status request))
         ∧ is_Some (d !! "_id")
         ∧ (create_service_request e request db).2 =
             {| users := users db;
                service_requests := service_requests db ++ [d] |}.
Proof.
  unfold create_service_request, try_except, bind, insert_one.
  destruct (write_fault e); simpl; [by left|].
  right. eexists. split; [|split]; cycle 2.
  { destruct (acknowledged e); simpl; reflexivity. }
  all: simpl; by simplify_map_eq.
Qed.

Lemma for_each_surface_id_read_only l db :
  (for_each surface_id l db).2 = db.
Proof.
  induction l as [|d l IH]; [done|].
  simpl. unfold bind at 1. unfold surface_id at 1, bind at 1, getitem.
  destruct (d !! "_id"); simpl; [|done].
  unfold bind at 1.
  destruct (for_each surface_id l db) as [[err|rs] db'] eqn:Hrest;
    simpl in *; by subst.
Qed.

Lemma get_pending_requests_read_only e db :
  (get_pending_requests e db).2 = db.
Proof.
  unfold get_pending_requests, try_except, bind, find_sorted_desc.
  destruct (read_fault e); simpl; [done|].
  pose proof (for_each_surface_id_read_only
                (merge_sort (desc_by "createdAt")
                   (List.filter (matches "status" (VStr "pending"))
                      (service_requests db))) db) as Hro.
  destruct (for_each surface_id _ db) as [[err|rs] db']; simpl in *; by subst.
Qed.

Lemma handle_request_action_effect e request_id action cg db :
  (handle_request_action e request_id action cg db).2 = db
  ∨ ∃ i d,
      service_requests db !! i = Some d
      ∧ (handle_request_action e request_id action cg db).2 =
          {| users := users db;
             service_requests :=
               <[i := decision e action cg ∪ d]> (service_requests db) |}.
Proof.
  destruct (decide (action ∈ ["approve"; "reject"])) as [Hact|Hact]; cycle 1.
  { left. unfold handle_request_action, try_except.
    by rewrite bool_decide_eq_false_2. }
  destruct (ObjectId request_id) as [o|] eqn:Ho; cycle 1.
  { left. unfold handle_request_action, try_except.
    by rewrite (action_allowed _ Hact), Ho. }
  destruct (write_fault e) as [msg|] eqn:Hw.
  { left. unfold handle_request_action, try_except, bind, update_one.
    by rewrite (action_allowed _ Hact), Ho, Hw. }
  destruct (List.find (matches "_id" (VOid o)) (service_requests db))
    as [d|] eqn:Hfind; cycle 1.
  { left. rewrite (handle_request_action_run _ _ _ _ _ o) by done. simpl.
    pose proof (update_first_spec (matches "_id" (VOid o))
                  (decision e action cg) (service_requests db)) as Hspec.
    rewrite Hfind in Hspec. rewrite Hspec. simpl. by destruct db. }
  right.
  destruct (handle_request_action_writes e request_id action cg db o d)
    as (i & Hi & _ & ->); try done.
  by exists i, d.
Qed.

Lemma decided_status_known e action cg d :
  status_known (decision e action cg ∪ d).
Proof.
  unfold status_known.
  rewrite (decision_written e action cg d "status"
             (VStr (decided_status action))) by done.
  unfold decided_status. case_bool_decide; auto.
Qed.

(** Every user document the system stores has the fields of the data
    model. *)
Lemma serve_keeps_user_documents e r db :
  Forall user_document (users db) →
  Forall user_document (users (serve e r db).2).
Proof.
  intros Hall. destruct r as [user|user|p| |request_id action cg]; simpl.
  - destruct (signup_effect e user db) as [->|(d & Hd & ->)]; [done|].
    simpl. apply Forall_app. split; [done|]. by apply Forall_singleton.
  - by rewrite login_read_only.
  - destruct (create_service_request_effect e
                (ServiceRequest.of_payload p) db)
      as [->|(d & _ & _ & ->)]; done.
  - by rewrite get_pending_requests_read_only.
  - destruct (handle_request_action_effect e request_id action cg db)
      as [->|(i & d & _ & ->)]; done.
Qed.

(** Every stored request keeps the identifier the store gave it. *)
Lemma serve_keeps_request_ids e r db :
  Forall (λ d, is_Some (d !! "_id")) (service_requests db) →
  Forall (λ d, is_Some (d !! "_id")) (service_requests (serve e r db).2).
Proof.
  intros Hall. destruct r as [user|user|p| |request_id action cg]; simpl.
  - destruct (signup_effect e user db) as [->|(d & _ & ->)]; done.
  - by rewrite login_read_only.
  - destruct (create_service_request_effect e
                (ServiceRequest.of_payload p) db)
      as [->|(d & _ & Hid & ->)]; [done|].
    simpl. apply Forall_app. split; [done|]. by apply Forall_singleton.
  - by rewrite get_pending_requests_read_only.
  - destruct (handle_request_action_effect e request_id action cg db)
      as [->|(i & d & Hi & ->)]; [done|].
    simpl. apply Forall_insert; [done|].
    rewrite decision_frame.
    + eapply (Forall_lookup_1 _ _ _ _ Hall Hi).
    + unfold action_fields. rewrite !not_elem_of_cons.
      repeat split; try done. apply not_elem_of_nil.
Qed.

Lemma serve_keeps_known_status e r db :
  asks_known_status r →
  Forall status_known (service_requests db) →
  Forall status_known (service_requests (serve e r db).2).
Proof.
  intros Hr Hall. destruct r as [user|user|p| |request_id action cg]; simpl.
  - destruct (signup_effect e user db) as [->|(d & _ & ->)]; done.
  - by rewrite login_read_only.
  - destruct (create_service_request_effect e
                (ServiceRequest.of_payload p) db)
      as [->|(d & Hst & _ & ->)]; [done|].
    simpl. apply Forall_app. split; [done|]. apply Forall_singleton.
    unfold status_known. rewrite Hst. simpl in *.
    destruct Hr as [->|[->|[->| ->]]]; simpl; auto.
  - by rewrite get_pending_requests_read_only.
  - destruct (handle_request_action_effect e request_id action cg db)
      as [->|(i & d & Hi & ->)]; [done|].
    simpl. apply Forall_insert; [done|]. apply decided_status_known.
Qed.

(** C8, as the code has it: creation stores the status of the body as it
    comes, so the stored statuses stay among pending, approved and
    rejected as long as no creation asks for another one; approve and
    reject only ever write approved and rejected. *)
Theorem stored_status_known (rs : list (env * request)) db :
  Forall (λ er, asks_known_status er.2) rs →
  Forall status_known (service_requests db) →
  Forall status_known (service_requests (serve_all rs db)).
Proof.
  intros Hrs. revert db.
  induction Hrs as [|[e r] rs Hr _ IH]; intros db Hdb; simpl; [done|].
  by apply IH, serve_keeps_known_status.
Qed.

(** ** Failures of the driver *)

(** C9, as the code has it: when the driver raises, signup, login and the
    listing answer 500 with a fixed detail, while service-request
    creation and the approve/reject handler both put the driver's message
    into the detail. *)
Theorem driver_failure_details e msg :
  (∀ user db,
     read_fault e = Some msg →
     signup e user db =
       (inl (HTTPException 500 "Signup failed due to server error"), db))
  ∧ (∀ user db,
       read_fault e = None →
       write_fault e = Some msg →
       (∀ d, d ∈ users db →
             d !! "email" ≠ Some (VStr (UserSignup.email user))) →
       signup e user db =
         (inl (HTTPException 500 "Signup failed due to server error"), db))
  ∧ (∀ user db,
       read_fault e = Some msg →
       login e user db =
         (inl (HTTPException 500 "Login failed due to server error"), db))
  ∧ (∀ db,
       read_fault e = Some msg →
       get_pending_requests e db =
         (inl (HTTPException 500 "Failed to fetch service requests"), db))
  ∧ (∀ request db,
       write_fault e = Some msg →
       create_service_request e request db =
         (inl (HTTPException 500
                 ("Failed to create service request: " +:+ msg)), db))
  ∧ (∀ request_id action cg db,
       action ∈ ["approve"; "reject"] →
       is_Some (ObjectId request_id) →
       write_fault e = Some msg →
       handle_request_action e request_id action cg db =
         (inl (HTTPException 500
                 ("Failed to process service request: " +:+ msg)), db)).
Proof.
  repeat split.
  - intros user db Hr. unfold signup, try_except, bind, find_one.
    by rewrite Hr.
  - intros user db Hr Hw Hnew.
    unfold signup, try_except, bind, find_one, insert_one.
    rewrite Hr. simpl. rewrite find_miss; cycle 1.
    { intros d Hd. by apply matches_false, Hnew. }
    simpl. by rewrite Hw.
  - intros user db Hr. unfold login, try_except, bind, find_one.
    by rewrite Hr.
  - intros db Hr.
    unfold get_pending_requests, try_except, bind, find_sorted_desc.
    by rewrite Hr.
  - intros request db Hw.
    unfold create_service_request, try_except, bind, insert_one.
    by rewrite Hw.
  - intros request_id action cg db Hact [o Ho] Hw.
    unfold handle_request_action, try_except, bind, update_one.
    by rewrite (action_allowed _ Hact), Ho, Hw.
Qed.

End Properties.

(** * Further properties of the handlers *)

Section Coverage.
Context `{RT : Runtime}.
Implicit Types (d upd : gmap string value) (l : list (gmap string value)).
Implicit Types (db : database) (e : env).

(** ** Signup, in full *)

Lemma find_app_miss (p : gmap string value → bool) l l' :
  (∀ d, d ∈ l → p d = false) → List.find p (l ++ l') = List.find p l'.
Proof.
  induction l as [|x l IH]; intros Hall; simpl; [done|].
  rewrite (Hall x) by constructor.
  apply IH. intros d Hd. apply Hall. by constructor.
Qed.

Lemma find_None_miss (p : gmap string value → bool) l :
  List.find p l = None → ∀ d, d ∈ l → p d = false.
Proof.
  intros Hnone d Hd. apply (List.find_none p l Hnone). by apply list_elem_of_In.
Qed.

(** Either nothing is written, or no stored user had the email and the
    driver stored the new document at the end of the collection. *)
Lemma signup_cases e user db :
  (signup e user db).2 = db
  ∨ ((∀ d, d ∈ users db → d !! "email" ≠ Some (VStr (UserSignup.email user)))
     ∧ read_fault e = None
     ∧ write_fault e = None
     ∧ signup e user db =
         (if acknowledged e then inr (Message "Account created successfully!")
          else inl (HTTPException 500 "Signup failed"),
          {| users := users db ++ [stored_user e user];
             service_requests := service_requests db |})).
Proof.
  unfold signup, try_except, bind, find_one, insert_one.
  destruct (read_fault e) as [msg|]; simpl; [by left|].
  destruct (List.find _ (users db)) as [d|] eqn:Hfind.
  { left. apply find_Some_matches in Hfind as [_ Hm].
    by rewrite (matches_truthy _ _ _ Hm). }
  simpl. destruct (write_fault e) as [msg|]; simpl; [by left|].
  right. split; [|split; [done|split; [done|]]].
  - intros d Hd. by apply matches_false, (find_None_miss _ _ Hfind).
  - by destruct (acknowledged e).
Qed.

Lemma stored_user_fields e user :
  stored_user e user !! "_id" = Some (VOid (fresh_id e))
  ∧ stored_user e user !! "name" = Some (VStr (UserSignup.name user))
  ∧ stored_user e user !! "email" = Some (VStr (UserSignup.email user))
  ∧ stored_user e user !! "password" = Some (VStr (UserSignup.password user))
  ∧ stored_user e user !! "dob" = Some (VStr (UserSignup.dob user))
  ∧ stored_user e user !! "role" = Some (VStr (UserSignup.role user)).
Proof. unfold stored_user, user_data. by simplify_map_eq. Qed.

(** X1: a signup with an email no stored user has, on a driver that answers
    and acknowledges, reports success and appends one document holding the
    submitted name, email, password (as given), dob and role under the
    generated identifier; the requests collection is untouched. *)
Theorem signup_new_email_registers e user db :
  read_fault e = None →
  write_fault e = None →
  acknowledged e = true →
  (∀ d, d ∈ users db → d !! "email" ≠ Some (VStr (UserSignup.email user))) →
  ∃ d,
    signup e user db =
      (inr (Message "Account created successfully!"),
       {| users := users db ++ [d];
          service_requests := service_requests db |})
    ∧ dom d = list_to_set ["_id"; "name"; "email"; "password"; "dob"; "role"]
    ∧ d !! "_id" = Some (VOid (fresh_id e))
    ∧ d !! "name" = Some (VStr (UserSignup.name user))
    ∧ d !! "email" = Some (VStr (UserSignup.email user))
    ∧ d !! "password" = Some (VStr (UserSignup.password user))
    ∧ d !! "dob" = Some (VStr (UserSignup.dob user))
    ∧ d !! "role" = Some (VStr (UserSignup.role user)).
Proof.
  intros Hr Hw Hack Hnew. exists (stored_user e user).
  split; [|split; [|apply stored_user_fields]].
  - unfold signup, try_except, bind, find_one, insert_one.
    rewrite Hr. simpl. rewrite find_miss; cycle 1.
    { intros d Hd. by apply matches_false, Hnew. }
    simpl. rewrite Hw. simpl. by rewrite Hack.
  - unfold stored_user, user_data.
    rewrite !dom_insert_L, dom_empty_L. simpl. set_solver.
Qed.

(** X2: after a signup of that kind, a login with the same email and
    password succeeds and gives back the submitted name, email, role and dob, with
    the string form of the generated identifier as id. *)
Theorem signup_then_login e1 e2 user db :
  read_fault e1 = None →
  write_fault e1 = None →
  acknowledged e1 = true →
  read_fault e2 = None →
  (∀ d, d ∈ users db → d !! "email" ≠ Some (VStr (UserSignup.email user))) →
  (login e2
     (UserLogin.mk (UserSignup.email user) (UserSignup.password user))
     (signup e1 user db).2).1 =
    inr (LoginBody "Login successful!"
           (<["id" := VStr (oid_str (fresh_id e1))]>
           (<["name" := VStr (UserSignup.name user)]>
           (<["email" := VStr (UserSignup.email user)]>
           (<["role" := VStr (UserSignup.role user)]>
           (<["dob" := VStr (UserSignup.dob user)]> ∅)))))).
Proof.
  intros Hr1 Hw1 _ Hr2 Hnew.
  destruct (signup_cases e1 user db) as [Hsame|(_ & _ & _ & ->)].
  { exfalso. revert Hsame.
    unfold signup, try_except, bind, find_one, insert_one.
    rewrite Hr1. simpl. rewrite find_miss; cycle 1.
    { intros d Hd. by apply matches_false, Hnew. }
    simpl. rewrite Hw1. simpl.
    destruct (acknowledged e1); simpl; intros Hdb;
      apply (f_equal (λ x, length (users x))) in Hdb; simpl in Hdb;
      rewrite length_app in Hdb; simpl in Hdb; lia. }
  destruct (stored_user_fields e1 user) as (Hi & Hn & Hm & Hp & Hb & Hro).
  unfold login, try_except, bind, find_one, getitem. rewrite Hr2. simpl.
  rewrite find_app_miss; cycle 1.
  { intros d Hd. by apply matches_false, Hnew. }
  simpl. rewrite (proj2 (matches_true _ _ _) Hm).
  rewrite (matches_truthy "email" (VStr (UserSignup.email user)));
    [|by apply matches_true].
  rewrite Hp. simpl. rewrite bool_decide_eq_false_2 by (by intros []).
  rewrite Hi. simpl. rewrite Hn. simpl. rewrite Hm. simpl.
  rewrite Hro. simpl. rewrite Hb. simpl. reflexivity.
Qed.

(** X3: an insert the store does not acknowledge makes signup answer 500
    with its own detail, while in service-request creation the same
    exception is caught again by the handler's catch-all clause and comes
    out wrapped behind the creation prefix. *)
Theorem unacknowledged_insert_answers e :
  acknowledged e = false →
  write_fault e = None →
  (∀ user db,
     read_fault e = None →
     (∀ d, d ∈ users db →
           d !! "email" ≠ Some (VStr (UserSignup.email user))) →
     (signup e user db).1 = inl (HTTPException 500 "Signup failed"))
  ∧ (∀ request db,
       (create_service_request e request db).1 =
         inl (HTTPException 500
                ("Failed to create service request: "
                 +:+ HTTPException_str 500 "Failed to create service request"))).
Proof.
  intros Hack Hw. split.
  - intros user db Hr Hnew.
    unfold signup, try_except, bind, find_one, insert_one.
    rewrite Hr. simpl. rewrite find_miss; cycle 1.
    { intros d Hd. by apply matches_false, Hnew. }
    simpl. rewrite Hw. simpl. by rewrite Hack.
  - intros request db.
    unfold create_service_request, try_except, bind, insert_one.
    rewrite Hw. simpl. by rewrite Hack.
Qed.

(** ** Login on documents that lack a field *)

(** X4: when the user found has no password field, or has the right
    password but lacks one of _id, name, role and dob, the lookup of the
    missing key raises and login answers 500 with its generic detail. *)
Theorem login_missing_field_server_error e user db d :
  read_fault e = None →
  List.find (matches "email" (VStr (UserLogin.email user))) (users db)
    = Some d →
  d !! "password" = None
  ∨ (d !! "password" = Some (VStr (UserLogin.password user))
     ∧ (d !! "_id" = None ∨ d !! "name" = None ∨ d !! "role" = None
        ∨ d !! "dob" = None)) →
  login e user db =
    (inl (HTTPException 500 "Login failed due to server error"), db).
Proof.
  intros Hr Hfind Hmissing.
  pose proof Hfind as [_ Hmatch]%find_Some_matches.
  pose proof (matches_truthy _ _ _ Hmatch) as Ht.
  apply matches_true in Hmatch.
  unfold login, try_except, bind, find_one, getitem. rewrite Hr. simpl.
  rewrite Hfind, Ht.
  destruct Hmissing as [->|[-> Hmissing]]; simpl; [done|].
  rewrite bool_decide_eq_false_2 by (by intros []).
  destruct (d !! "_id") as [i|]; simpl; [|done].
  destruct (d !! "name") as [n|]; simpl; [|done].
  rewrite Hmatch. simpl.
  destruct (d !! "role") as [r|]; simpl; [|done].
  destruct (d !! "dob") as [b|]; simpl; [|done].
  by destruct Hmissing as [|[|[|]]].
Qed.

Lemma signup_stores e user db :
  read_fault e = None →
  write_fault e = None →
  List.find (matches "email" (VStr (UserSignup.email user))) (users db)
    = None →
  (signup e user db).2 =
    {| users := users db ++ [stored_user e user];
       service_requests := service_requests db |}.
Proof.
  intros Hr Hw Hfind. unfold signup, try_except, bind, find_one, insert_one.
  rewrite Hr. simpl. rewrite Hfind. simpl. rewrite Hw. simpl.
  by destruct (acknowledged e).
Qed.

(** X12: once a signup has been served by a driver that answers and
    acknowledges, its email is taken: a further signup with that email,
    whatever its other fields, fails with 409 and writes nothing. *)
Theorem signup_twice_conflicts e1 e2 user again db :
  read_fault e1 = None →
  write_fault e1 = None →
  acknowledged e1 = true →
  read_fault e2 = None →
  UserSignup.email again = UserSignup.email user →
  signup e2 again (signup e1 user db).2 =
    (inl (HTTPException 409
       "Email already registered. Please use a different email or login to your existing account."),
     (signup e1 user db).2).
Proof.
  intros Hr1 Hw1 Hack Hr2 Hsame.
  assert (∃ d, List.find (matches "email" (VStr (UserSignup.email user)))
                 (users (signup e1 user db).2) = Some d) as [d Hfind].
  { destruct (List.find (matches "email" (VStr (UserSignup.email user)))
                (users db)) as [d|] eqn:Hfind.
    - exists d. unfold signup, try_except, bind, find_one.
      rewrite Hr1. simpl. rewrite Hfind.
      pose proof Hfind as [_ Hm]%find_Some_matches.
      by rewrite (matches_truthy _ _ _ Hm).
    - exists (stored_user e1 user).
      rewrite signup_stores by done. simpl.
      rewrite find_app_miss by by apply find_None_miss.
      simpl. by rewrite (proj2 (matches_true _ _ _)
                           (proj1 (proj2 (proj2 (stored_user_fields e1 user))))). }
  unfold signup at 1. unfold try_except, bind, find_one.
  rewrite Hr2, Hsame. simpl. rewrite Hfind.
  apply find_Some_matches in Hfind as [_ Hm].
  by rewrite (matches_truthy _ _ _ Hm).
Qed.

(** ** Status codes *)

Lemma for_each_cons {A B} (f : A → M B) (x : A) (xs : list A) db :
  for_each f (x :: xs) db =
    match f x db with
    | (inl err, db') => (inl err, db')
    | (inr y, db') =>
        match for_each f xs db' with
        | (inl err, db'') => (inl err, db'')
        | (inr ys, db'') => (inr (y :: ys), db'')
        end
    end.
Proof. reflexivity. Qed.

Lemma surface_id_run d db :
  surface_id d db =
    match d !! "_id" with
    | Some i => (inr (delete "_id" (<["id" := VStr (py_str i)]> d)), db)
    | None => (inl (KeyError "_id"), db)
    end.
Proof. unfold surface_id, bind, getitem. by destruct (d !! "_id"). Qed.

Lemma for_each_surface_id_outcome l db :
  (∃ rs, for_each surface_id l db = (inr rs, db))
  ∨ (∃ k, for_each surface_id l db = (inl (KeyError k), db)).
Proof.
  induction l as [|d l IH]; [left; by eexists|].
  rewrite for_each_cons, surface_id_run.
  destruct (d !! "_id"); [|right; by eexists].
  destruct IH as [[rs ->]|[k ->]]; [left|right]; by eexists.
Qed.

Ltac in_codes := by repeat constructor.

(** X5: whatever the request, the database and the driver, a handler
    either returns a body or raises an HTTPException whose code is one of
    those its route raises in the source: 409/500 for signup, 404/401/500
    for login, 500 for creation and listing, 400/404/500 for approve and
    reject.  No other exception leaves a handler. *)
Theorem handlers_answer_within_codes e r db :
  answers_within (raised_codes r) (serve e r db).1.
Proof.
  destruct r as [user|user|p| |request_id action cg]; simpl.
  - unfold signup, try_except, bind, find_one, insert_one.
    destruct (read_fault e); simpl; [in_codes|].
    destruct (truthy _); simpl; [in_codes|].
    destruct (write_fault e); simpl; [in_codes|].
    destruct (acknowledged e); simpl; [done|in_codes].
  - unfold login, try_except, bind, find_one, getitem.
    destruct (read_fault e); simpl; [in_codes|].
    destruct (List.find _ _) as [d|]; simpl; [|in_codes].
    destruct (bool_decide (d = ∅)); simpl; [in_codes|].
    destruct (d !! "password"); simpl; [|in_codes].
    case_bool_decide; simpl; [in_codes|].
    repeat (match goal with
            | |- context [match ?m !! ?k with _ => _ end] =>
                destruct (m !! k); simpl; [|in_codes]
            end).
    done.
  - unfold create_service_request, try_except, bind, insert_one.
    destruct (write_fault e); simpl; [in_codes|].
    destruct (acknowledged e); simpl; [done|in_codes].
  - unfold get_pending_requests, try_except, bind, find_sorted_desc.
    destruct (read_fault e); simpl; [in_codes|].
    destruct (for_each_surface_id_outcome
                (merge_sort (desc_by "createdAt")
                   (List.filter (matches "status" (VStr "pending"))
                      (service_requests db))) db) as [[rs ->]|[k ->]];
      simpl; [done|in_codes].
  - unfold handle_request_action, try_except, bind, update_one, matched_count.
    case_bool_decide; simpl; [|in_codes].
    destruct (ObjectId request_id); simpl; [|in_codes].
    destruct (write_fault e); simpl; [in_codes|].
    destruct (update_first _ _ _) as [l n]; simpl.
    destruct (acknowledged e); simpl; [|in_codes].
    case_bool_decide; simpl; [done|in_codes].
Qed.

(** ** What is kept *)

Lemma serve_appends e r db :
  users db `prefix_of` users (serve e r db).2
  ∧ request_ids db `prefix_of` request_ids (serve e r db).2.
Proof.
  unfold request_ids.
  destruct r as [user|user|p| |request_id action cg]; simpl.
  - destruct (signup_cases e user db) as [->|(_ & _ & _ & ->)]; [done|].
    simpl. split; [by apply prefix_app_r|done].
  - by rewrite login_read_only.
  - destruct (create_service_request_effect e
                (ServiceRequest.of_payload p) db)
      as [->|(d & _ & _ & ->)]; [done|].
    simpl. split; [done|]. rewrite fmap_app. by apply prefix_app_r.
  - by rewrite get_pending_requests_read_only.
  - destruct (handle_request_action_effect e request_id action cg db)
      as [->|(i & d & Hi & ->)]; [done|].
    simpl. split; [done|].
    rewrite list_fmap_insert, list_insert_id; [done|].
    rewrite list_lookup_fmap, Hi. simpl. f_equal. symmetry.
    apply decision_frame.
    unfold action_fields. rewrite !not_elem_of_cons.
    repeat split; try done. apply not_elem_of_nil.
Qed.

(** X6: no sequence of requests deletes or reorders anything: the user
    documents present before are, unchanged, the first ones afterwards, and
    so are the identifiers of the stored requests. *)
Theorem documents_never_deleted (rs : list (env * request)) db :
  users db `prefix_of` users (serve_all rs db)
  ∧ request_ids db `prefix_of` request_ids (serve_all rs db).
Proof.
  revert db. induction rs as [|[e r] rs IH]; intros db; simpl; [done|].
  destruct (serve_appends e r db) as [Hu Hr].
  destruct (IH (serve e r db).2) as [Hu' Hr'].
  split; by etrans.
Qed.

Lemma serve_keeps_emails_unique e r db :
  NoDup (emails db) → NoDup (emails (serve e r db).2).
Proof.
  unfold emails. intros Hnd.
  destruct r as [user|user|p| |request_id action cg]; simpl.
  - destruct (signup_cases e user db) as [->|(Hnew & _ & _ & ->)]; [done|].
    simpl. rewrite fmap_app. apply NoDup_app. split; [done|]. split.
    + intros m Hm Hin. apply list_elem_of_fmap in Hm as (d & -> & Hd).
      apply list_elem_of_singleton in Hin.
      destruct (stored_user_fields e user) as (_ & _ & Hmail & _).
      rewrite Hmail in Hin. by apply (Hnew d).
    + simpl. apply NoDup_singleton.
  - by rewrite login_read_only.
  - destruct (create_service_request_effect e
                (ServiceRequest.of_payload p) db)
      as [->|(d & _ & _ & ->)]; done.
  - by rewrite get_pending_requests_read_only.
  - destruct (handle_request_action_effect e request_id action cg db)
      as [->|(i & d & _ & ->)]; done.
Qed.

(** X7: served one after the other, requests never give two stored users
    the same email: signup only inserts after its lookup found no user
    with that email. *)
Theorem sequential_signups_keep_emails_unique (rs : list (env * request)) db :
  NoDup (emails db) → NoDup (emails (serve_all rs db)).
Proof.
  revert db. induction rs as [|[e r] rs IH]; intros db Hnd; simpl; [done|].
  by apply IH, serve_keeps_emails_unique.
Qed.

(** X8: the listing, login and every failed call leave the database alone;
    signup never touches the requests, and creation, approve and reject
    never touch the users. *)
Theorem handlers_write_footprint e db :
  (get_pending_requests e db).2 = db
  ∧ (∀ user, service_requests (signup e user db).2 = service_requests db)
  ∧ (∀ request,
       users (create_service_request e request db).2 = users db)
  ∧ (∀ request_id action cg,
       users (handle_request_action e request_id action cg db).2 = users db)
  ∧ (∀ r err, (serve e r db).1 = inl err →
              acknowledged e = true → (serve e r db).2 = db).
Proof.
  split; [apply get_pending_requests_read_only|].
  split.
  { intros user.
    destruct (signup_cases e user db) as [->|(_ & _ & _ & ->)]; done. }
  split.
  { intros request.
    destruct (create_service_request_effect e request db)
      as [->|(d & _ & _ & ->)]; done. }
  split.
  { intros request_id action cg.
    destruct (handle_request_action_effect e request_id action cg db)
      as [->|(i & d & _ & ->)]; done. }
  intros r err Herr Hack.
  destruct r as [user|user|p| |request_id action cg]; simpl in *.
  - destruct (signup_cases e user db) as [->|(_ & _ & _ & Heq)]; [done|].
    rewrite Heq, Hack in Herr. done.
  - apply login_read_only.
  - revert Herr.
    unfold create_service_request, try_except, bind, insert_one.
    destruct (write_fault e); simpl; [done|]. by rewrite Hack.
  - apply get_pending_requests_read_only.
  - destruct (decide (action ∈ ["approve"; "reject"])) as [Hact|Hact]; cycle 1.
    { unfold handle_request_action, try_except.
      by rewrite bool_decide_eq_false_2. }
    destruct (ObjectId request_id) as [o|] eqn:Ho; cycle 1.
    { unfold handle_request_action, try_except.
      by rewrite (action_allowed _ Hact), Ho. }
    destruct (write_fault e) as [msg|] eqn:Hw.
    { unfold handle_request_action, try_except, bind, update_one.
      by rewrite (action_allowed _ Hact), Ho, Hw. }
    rewrite (handle_request_action_update _ _ _ _ _ o) in Herr |- * by done.
    by destruct (List.find _ _).
Qed.

(** ** Creation and the listing together *)

Lemma create_service_request_stores e request db :
  write_fault e = None →
  (create_service_request e request db).2 =
    {| users := users db;
       service_requests := service_requests db ++ [stored_request e request] |}.
Proof.
  intros Hw. unfold create_service_request, try_except, bind, insert_one.
  rewrite Hw. simpl. by destruct (acknowledged e).
Qed.

(** X9: a request created without a status, or with status pending, by an
    acknowledged insert, is in the next listing, under the string form of its generated identifier
    and with the requester, service, cost and creation time of the body. *)
Theorem created_request_is_listed e1 e2 p db :
  write_fault e1 = None →
  acknowledged e1 = true →
  read_fault e2 = None →
  ServiceRequest.p_status p = None
  ∨ ServiceRequest.p_status p = Some "pending" →
  Forall (λ d, is_Some (d !! "_id")) (service_requests db) →
  ∃ rs r,
    (get_pending_requests e2
       (create_service_request e1 (ServiceRequest.of_payload p) db).2).1
      = inr (RequestsBody rs)
    ∧ r ∈ rs
    ∧ r !! "id" = Some (VStr (oid_str (fresh_id e1)))
    ∧ r !! "_id" = None
    ∧ r !! "status" = Some (VStr "pending")
    ∧ r !! "userId" = Some (VStr (ServiceRequest.p_userId p))
    ∧ r !! "serviceType" = Some (VStr (ServiceRequest.p_serviceType p))
    ∧ r !! "requirements" = Some (VStr (ServiceRequest.p_requirements p))
    ∧ r !! "cost" = Some (VNum (ServiceRequest.p_cost p))
    ∧ r !! "createdAt" = Some (VStr (ServiceRequest.p_createdAt p)).
Proof.
  intros Hw _ Hr Hst Hids.
  rewrite create_service_request_stores by done.
  set (d := stored_request e1 (ServiceRequest.of_payload p)).
  assert (Hstatus : d !! "status" = Some (VStr "pending")).
  { unfold d, stored_request, request_data.
    destruct Hst as [Hst|Hst]; simpl; rewrite Hst; by simplify_map_eq. }
  assert (Hid : d !! "_id" = Some (VOid (fresh_id e1))).
  { unfold d, stored_request. by simplify_map_eq. }
  set (pending := List.filter (matches "status" (VStr "pending"))
                    (service_requests db ++ [d])).
  set (sorted := merge_sort (desc_by "createdAt") pending).
  assert (Hin : d ∈ sorted).
  { unfold sorted. rewrite merge_sort_Permutation.
    apply list_elem_of_In, List.filter_In. split.
    - apply list_elem_of_In, elem_of_app. right. by apply list_elem_of_singleton.
    - by apply matches_true. }
  assert (Hall : Forall (λ d, is_Some (d !! "_id")) sorted).
  { apply Forall_forall. intros x Hx.
    unfold sorted in Hx. rewrite merge_sort_Permutation in Hx.
    apply list_elem_of_In, List.filter_In in Hx as [Hx _].
    apply list_elem_of_In, elem_of_app in Hx as [Hx|Hx].
    - rewrite Forall_forall in Hids. by apply Hids.
    - apply list_elem_of_singleton in Hx as ->. by rewrite Hid. }
  exists (surfaced <$> sorted), (surfaced d).
  split.
  { unfold get_pending_requests, try_except, bind, find_sorted_desc.
    rewrite Hr. simpl. fold pending. fold sorted.
    by rewrite for_each_surface_id. }
  split; [by apply list_elem_of_fmap_2|].
  split.
  { unfold surfaced. rewrite lookup_delete_ne, lookup_insert_eq by done.
    by rewrite Hid. }
  split; [unfold surfaced; apply lookup_delete_eq|].
  split; [by rewrite surfaced_lookup|].
  rewrite !surfaced_lookup by done.
  unfold d, stored_request, request_data. by simplify_map_eq.
Qed.

(** ** The pending list after a decision *)

Lemma filter_insert_length (p : gmap string value → bool) l i x y :
  l !! i = Some x →
  length (List.filter p (<[i := y]> l)) + (if p x then 1 else 0)
  = length (List.filter p l) + (if p y then 1 else 0).
Proof.
  revert i. induction l as [|z l IH]; intros [|i] Hi; simplify_eq/=.
  - destruct (p x), (p y); simpl; lia.
  - specialize (IH i Hi). destruct (p z); simpl; lia.
Qed.

(** X10: a successful approve or reject takes the request it found out of
    the pending list when it was pending, and leaves the length of that
    list as it was when the request had been decided before; no decision
    ever adds a pending request. *)
Theorem decision_shrinks_pending e request_id action cg db o d :
  action ∈ ["approve"; "reject"] →
  ObjectId request_id = Some o →
  write_fault e = None →
  List.find (matches "_id" (VOid o)) (service_requests db) = Some d →
  pending_count (handle_request_action e request_id action cg db).2
  + (if matches "status" (VStr "pending") d then 1 else 0)
  = pending_count db.
Proof.
  intros Hact Ho Hw Hfind.
  destruct (handle_request_action_writes e request_id action cg db o d)
    as (i & Hi & _ & ->); try done.
  unfold pending_count. simpl.
  rewrite (filter_insert_length _ _ _ _ (decision e action cg ∪ d) Hi).
  assert (matches "status" (VStr "pending") (decision e action cg ∪ d) = false)
    as ->; [|lia].
  apply matches_false.
  rewrite (decision_written e action cg d "status"
             (VStr (decided_status action))) by done.
  unfold decided_status. by case_bool_decide.
Qed.

(** X13: when the store takes an update without acknowledging it, reading
    the matched count of the result raises, and the handler's catch-all
    clause answers 500 with that exception's text behind its prefix,
    whether or not a request carries the identifier. *)
Theorem unacknowledged_update_answers e request_id action cg db :
  action ∈ ["approve"; "reject"] →
  is_Some (ObjectId request_id) →
  write_fault e = None →
  acknowledged e = false →
  (handle_request_action e request_id action cg db).1 =
    inl (HTTPException 500
           ("Failed to process service request: "
            +:+ InvalidOperation_str "matched_count")).
Proof.
  intros Hact [o Ho] Hw Hack.
  rewrite (handle_request_action_run _ _ _ _ _ o) by done.
  simpl. by rewrite Hack.
Qed.

(** ** From the empty database *)

Lemma serve_all_keeps_documents (rs : list (env * request)) db :
  Forall user_document (users db) →
  Forall (λ d, is_Some (d !! "_id")) (service_requests db) →
  Forall user_document (users (serve_all rs db))
  ∧ Forall (λ d, is_Some (d !! "_id")) (service_requests (serve_all rs db)).
Proof.
  revert db. induction rs as [|[e r] rs IH]; intros db Hu Hq; simpl; [done|].
  apply IH; [by apply serve_keeps_user_documents
            |by apply serve_keeps_request_ids].
Qed.

(** X11: on a database built from the empty one by any sequence of
    requests, a lookup that answers never ends in a server error: login
    answers with the user, 401 or 404, and the listing answers with a
    list. *)
Theorem reachable_reads_answer (rs : list (env * request)) e :
  read_fault e = None →
  (∀ user detail,
     (login e user (serve_all rs initial)).1
       ≠ inl (HTTPException 500 detail))
  ∧ ∃ l, (get_pending_requests e (serve_all rs initial)).1
           = inr (RequestsBody l).
Proof.
  intros Hr.
  destruct (serve_all_keeps_documents rs initial) as [Hu Hq];
    [by constructor|by constructor|].
  set (db := serve_all rs initial) in *. split.
  - intros user detail.
    unfold login, try_except, bind, find_one, getitem. rewrite Hr. simpl.
    destruct (List.find _ (users db)) as [d|] eqn:Hfind; simpl; [|done].
    apply find_Some_matches in Hfind as [Hin Hm].
    rewrite Forall_forall in Hu.
    destruct (Hu d Hin)
      as ([i ->] & [n ->] & [m ->] & [w ->] & [b ->] & [ro ->]).
    destruct (bool_decide (d = ∅)); simpl; [done|].
    by case_bool_decide.
  - eexists.
    unfold get_pending_requests, try_except, bind, find_sorted_desc.
    rewrite Hr. simpl. rewrite for_each_surface_id; [done|].
    apply Forall_forall. intros x Hx.
    rewrite merge_sort_Permutation in Hx.
    apply list_elem_of_In, List.filter_In in Hx as [Hx _].
    rewrite Forall_forall in Hq. by apply Hq, list_elem_of_In.
Qed.

End Coverage.

(** * The properties on concrete requests *)

Import Sample.

#[local] Existing Instance Sample.runtime.

Lemma sample_order : @RuntimeOrder Sample.runtime.
Proof.
  split.
  - apply String.leb_total.
  - intros a b. simpl.
    destruct (Z.le_ge_cases a b); [left|right]; by apply Z.leb_le.
Qed.

Lemma signup_existing_email_conflict_witness :
  (signup quiet alice one_user).2 = one_user
  ∧ (signup quiet alice one_user).1 =
      inl (HTTPException 409
        "Email already registered. Please use a different email or login to your existing account.").
Proof.
  destruct (signup_existing_email_conflict quiet alice one_user alice_doc)
    as [Hsame Hconflict].
  - apply (bool_decide_unpack _). vm_compute. exact I.
  - reflexivity.
  - split; [exact Hsame|]. apply Hconflict. reflexivity.
Defined.

Lemma login_failures_witness :
  (login quiet (UserLogin.mk "b@x.com" "p") one_user).1 =
    inl (HTTPException 404
           "User not found. Please check your email or sign up.")
  ∧ (login quiet (UserLogin.mk "a@x.com" "q") one_user).1 =
      inl (HTTPException 401 "Incorrect password. Please try again.")
  ∧ (login quiet (UserLogin.mk "a@x.com" "q") one_user).2 = one_user.
Proof.
  split; [|split].
  - apply (login_failures quiet (UserLogin.mk "b@x.com" "p") one_user).
    + reflexivity.
    + apply (Forall_forall (λ d : gmap string value,
                              d !! "email" ≠ Some (VStr "b@x.com"))).
      apply (bool_decide_unpack _). vm_compute. exact I.
  - apply (proj2 (proj2 (login_failures quiet (UserLogin.mk "a@x.com" "q")
                           one_user)) alice_doc (VStr "p")).
    + reflexivity.
    + reflexivity.
    + reflexivity.
    + discriminate.
  - apply (login_failures quiet (UserLogin.mk "a@x.com" "q") one_user).
Defined.

Lemma login_success_sanitized_witness :
  ∃ u, login quiet (UserLogin.mk "a@x.com" "p") one_user =
         (inr (LoginBody "Login successful!" u), one_user)
       ∧ dom u = list_to_set ["id"; "name"; "email"; "role"; "dob"]
       ∧ u !! "id" = (λ i, VStr (py_str i)) <$> alice_doc !! "_id"
       ∧ u !! "name" = alice_doc !! "name"
       ∧ u !! "email" = Some (VStr "a@x.com")
       ∧ u !! "role" = alice_doc !! "role"
       ∧ u !! "dob" = alice_doc !! "dob"
       ∧ u !! "password" = None.
Proof.
  apply (login_success_sanitized quiet (UserLogin.mk "a@x.com" "p")
           one_user alice_doc).
  - reflexivity.
  - reflexivity.
  - unfold user_document. repeat split; eexists; reflexivity.
  - reflexivity.
Defined.

Lemma create_service_request_stored_witness :
  ∃ d,
    service_requests
      (create_service_request quiet
         (ServiceRequest.of_payload (ask None "2024-02-01")) empty_db).2
      = [d]
    ∧ d !! "status" = Some (VStr "pending")
    ∧ d !! "updatedAt" = Some (VStr "2024-03-01T10:00:00.000001")
    ∧ (create_service_request quiet
         (ServiceRequest.of_payload (ask None "2024-02-01")) empty_db).1
        = inr (CreatedBody "Service request created successfully!"
                 "65f0c0ffee0123456789abcd").
Proof.
  destruct (create_service_request_stored quiet (ask None "2024-02-01")
              empty_db) as (d & Hd & Hst & Hup & _ & Hok).
  - reflexivity.
  - exists d. split; [exact Hd|]. split; [by apply Hst|].
    split; [exact Hup|]. by apply Hok.
Defined.

Lemma get_pending_requests_lists_witness :
  ∃ rs,
    get_pending_requests quiet after_history =
      (inr (RequestsBody rs), after_history)
    ∧ rs ≡ₚ surfaced <$>
             List.filter (matches "status" (VStr "pending"))
               (service_requests after_history)
    ∧ Sorted (desc_by "createdAt") rs
    ∧ Forall (λ r, r !! "status" = Some (VStr "pending")
                   ∧ r !! "_id" = None
                   ∧ ∃ s, r !! "id" = Some (VStr s)) rs.
Proof.
  apply (@get_pending_requests_lists Sample.runtime sample_order quiet
           after_history).
  - reflexivity.
  - apply (bool_decide_unpack _). vm_compute. exact I.
Defined.

Lemma handle_request_action_outcomes_witness :
  handle_request_action quiet request_id "approv" carer_a one_request =
    (inl (HTTPException 400 "Invalid action. Use 'approve' or 'reject'"),
     one_request)
  ∧ handle_request_action quiet "not-an-id" "approve" carer_a one_request =
      (inl (HTTPException 400 "Invalid request ID format"), one_request)
  ∧ handle_request_action quiet "65f0c0ffee0123456789ab99" "reject" carer_a
      one_request =
      (inl (HTTPException 404 "Service request not found"), one_request)
  ∧ ∃ d',
      (handle_request_action quiet request_id "approve" carer_a
         one_request).1 = inr (Message "Request approved successfully!")
      ∧ List.find (matches "_id" (VOid stored_oid))
          (service_requests
             (handle_request_action quiet request_id "approve" carer_a
                one_request).2) = Some d'
      ∧ d' !! "status" = Some (VStr "approved").
Proof.
  split; [|split; [|split]].
  - apply (handle_request_action_outcomes quiet request_id "approv" carer_a
             one_request).
    apply (bool_decide_unpack _). vm_compute. exact I.
  - apply (handle_request_action_outcomes quiet "not-an-id" "approve"
             carer_a one_request).
    + apply (bool_decide_unpack _). vm_compute. exact I.
    + reflexivity.
  - apply (proj1 (proj2 (proj2 (handle_request_action_outcomes quiet
                                  "65f0c0ffee0123456789ab99" "reject"
                                  carer_a one_request)))
             absent_oid).
    + apply (bool_decide_unpack _). vm_compute. exact I.
    + reflexivity.
    + reflexivity.
    + reflexivity.
    + apply (Forall_forall
               (λ d : gmap string value,
                  d !! "_id" ≠ Some (VOid absent_oid))).
      apply (bool_decide_unpack _). vm_compute. exact I.
  - apply (proj2 (proj2 (proj2 (handle_request_action_outcomes quiet
                                  request_id "approve" carer_a one_request)))
             stored_oid request_doc "approved").
    + left. split; reflexivity.
    + reflexivity.
    + reflexivity.
    + reflexivity.
    + apply (bool_decide_unpack _). vm_compute. exact I.
    + reflexivity.
Defined.

Lemma approve_then_reject_overwrites_witness :
  let first :=
    handle_request_action quiet request_id "approve" carer_a one_request in
  let second :=
    handle_request_action quiet request_id "reject" carer_b first.2 in
  first.1 = inr (Message "Request approved successfully!")
  ∧ second.1 = inr (Message "Request rejected successfully!")
  ∧ ∃ d',
      List.find (matches "_id" (VOid stored_oid)) (service_requests second.2)
        = Some d'
      ∧ d' !! "status" = Some (VStr "rejected")
      ∧ d' !! "caregiverId" = Some (VStr "c2")
      ∧ d' !! "caregiverName" = Some (VStr "Carer B")
      ∧ d' !! "caregiverEmail" = Some (VStr "cb@x.com").
Proof.
  apply (approve_then_reject_overwrites quiet quiet request_id stored_oid
           carer_a carer_b one_request request_doc).
  - reflexivity.
  - reflexivity.
  - reflexivity.
  - reflexivity.
  - reflexivity.
  - apply (bool_decide_unpack _). vm_compute. exact I.
  - reflexivity.
Defined.

Lemma handle_request_action_frame_witness :
  ∃ o i d d',
    ObjectId third_id = Some o
    ∧ service_requests busy !! i = Some d
    ∧ d !! "_id" = Some (VOid o)
    ∧ (∀ j x, j < i → service_requests busy !! j = Some x →
              x !! "_id" ≠ Some (VOid o))
    ∧ service_requests
        (handle_request_action quiet third_id "reject" carer_b busy).2
        = <[i := d']> (service_requests busy)
    ∧ (∀ j, j ≠ i →
            service_requests
              (handle_request_action quiet third_id "reject" carer_b busy).2
              !! j
            = service_requests busy !! j)
    ∧ users (handle_request_action quiet third_id "reject" carer_b busy).2
        = users busy
    ∧ d' !! "_id" = Some (VOid o)
    ∧ ∀ k, k ∉ action_fields → d' !! k = d !! k.
Proof.
  apply (handle_request_action_frame quiet third_id "reject" carer_b busy
           (Message "Request rejected successfully!")).
  reflexivity.
Defined.

Lemma stored_status_known_witness :
  Forall status_known (service_requests after_history).
Proof.
  apply (stored_status_known history empty_db).
  - unfold history. repeat (apply Forall_cons; split; [simpl; auto|]).
    apply Forall_nil_2.
  - apply Forall_nil_2.
Defined.

(** C8 as the specification words it fails: a creation whose body carries
    the status "done" stores a request with that status. *)
Lemma stored_status_unchecked :
  ¬ Forall status_known (service_requests (serve_all odd_history empty_db)).
Proof.
  apply (bool_decide_eq_false_1 _). vm_compute. reflexivity.
Qed.

Lemma driver_failure_details_witness :
  signup (failing "boom") alice one_user =
    (inl (HTTPException 500 "Signup failed due to server error"), one_user)
  ∧ login (failing "boom") (UserLogin.mk "a@x.com" "p") one_user =
      (inl (HTTPException 500 "Login failed due to server error"), one_user)
  ∧ get_pending_requests (failing "boom") one_request =
      (inl (HTTPException 500 "Failed to fetch service requests"),
       one_request)
  ∧ create_service_request (failing "boom")
      (ServiceRequest.of_payload (ask None "2024-02-01")) empty_db =
      (inl (HTTPException 500 "Failed to create service request: boom"),
       empty_db)
  ∧ handle_request_action (failing "boom") request_id "approve" carer_a
      one_request =
      (inl (HTTPException 500 "Failed to process service request: boom"),
       one_request).
Proof.
  destruct (driver_failure_details (failing "boom") "boom")
    as (Hsignup & _ & Hlogin & Hlist & Hcreate & Haction).
  split; [by apply Hsignup|]. split; [by apply Hlogin|].
  split; [by apply Hlist|]. split; [by apply Hcreate|].
  apply Haction.
  - apply (bool_decide_unpack _). vm_compute. exact I.
  - eexists. reflexivity.
  - reflexivity.
Defined.

(** C9 as the specification words it fails: the approve/reject handler
    answers a failing driver with a detail that carries the driver's
    message, so the detail is not a fixed one. *)
Lemma process_action_failure_echoed :
  ¬ generic_failure
      (λ msg, (handle_request_action (failing msg) request_id "approve"
                 carer_a one_request).1).
Proof.
  intros [detail Hall].
  assert (Ha : inl (HTTPException 500 "Failed to process service request: a")
               = @inl exn body (HTTPException 500 detail))
    by exact (Hall "a").
  assert (Hb : inl (HTTPException 500 "Failed to process service request: b")
               = @inl exn body (HTTPException 500 detail))
    by exact (Hall "b").
  congruence.
Qed.


Lemma signup_new_email_registers_witness :
  ∃ d,
    signup for_bob bob one_user =
      (inr (Message "Account created successfully!"),
       {| users := users one_user ++ [d];
          service_requests := service_requests one_user |})
    ∧ d !! "email" = Some (VStr "b@x.com")
    ∧ d !! "password" = Some (VStr "s3cret").
Proof.
  destruct (signup_new_email_registers for_bob bob one_user)
    as (d & Hrun & _ & _ & _ & Hmail & Hpw & _).
  - reflexivity.
  - reflexivity.
  - reflexivity.
  - apply (Forall_forall (λ d : gmap string value,
                            d !! "email" ≠ Some (VStr "b@x.com"))).
    apply (bool_decide_unpack _). vm_compute. exact I.
  - exists d. split; [exact Hrun|]. split; [exact Hmail|exact Hpw].
Defined.

Lemma signup_then_login_witness :
  (login quiet (UserLogin.mk "b@x.com" "s3cret")
     (signup for_bob bob one_user).2).1 =
    inr (LoginBody "Login successful!"
           (<["id" := VStr "65f0c0ffee0123456789ab10"]>
           (<["name" := VStr "B"]>
           (<["email" := VStr "b@x.com"]>
           (<["role" := VStr "elder"]>
           (<["dob" := VStr "1950-05-05"]> ∅)))))).
Proof.
  apply (signup_then_login for_bob quiet bob one_user).
  - reflexivity.
  - reflexivity.
  - reflexivity.
  - reflexivity.
  - apply (Forall_forall (λ d : gmap string value,
                            d !! "email" ≠ Some (VStr "b@x.com"))).
    apply (bool_decide_unpack _). vm_compute. exact I.
Defined.

Lemma unacknowledged_insert_answers_witness :
  (signup unacknowledging bob one_user).1 =
    inl (HTTPException 500 "Signup failed")
  ∧ (create_service_request unacknowledging
       (ServiceRequest.of_payload (ask None "2024-02-01")) empty_db).1 =
      inl (HTTPException 500
             "Failed to create service request: 500: Failed to create service request").
Proof.
  destruct (unacknowledged_insert_answers unacknowledging)
    as [Hsignup Hcreate].
  - reflexivity.
  - reflexivity.
  - split; [|apply Hcreate].
    apply Hsignup; [reflexivity|].
    apply (Forall_forall (λ d : gmap string value,
                            d !! "email" ≠ Some (VStr "b@x.com"))).
    apply (bool_decide_unpack _). vm_compute. exact I.
Defined.

Lemma login_missing_field_server_error_witness :
  login quiet (UserLogin.mk "old@x.com" "p") legacy_db =
    (inl (HTTPException 500 "Login failed due to server error"), legacy_db).
Proof.
  apply (login_missing_field_server_error quiet
           (UserLogin.mk "old@x.com" "p") legacy_db legacy_doc).
  - reflexivity.
  - reflexivity.
  - left. reflexivity.
Defined.

Lemma sequential_signups_keep_emails_unique_witness :
  NoDup (emails (serve_all [(quiet, PostSignup alice);
                            (for_bob, PostSignup bob);
                            (quiet, PostSignup alice)] empty_db)).
Proof.
  apply (sequential_signups_keep_emails_unique
           [(quiet, PostSignup alice); (for_bob, PostSignup bob);
            (quiet, PostSignup alice)] empty_db).
  apply NoDup_nil_2.
Defined.

Lemma handlers_write_footprint_witness :
  (serve (failing "boom") (PostSignup bob) one_user).2 = one_user.
Proof.
  apply (proj2 (proj2 (proj2 (proj2
           (handlers_write_footprint (failing "boom") one_user))))
           (PostSignup bob)
           (HTTPException 500 "Signup failed due to server error")).
  - reflexivity.
  - reflexivity.
Defined.

Lemma created_request_is_listed_witness :
  ∃ rs r,
    (get_pending_requests quiet
       (create_service_request quiet
          (ServiceRequest.of_payload (ask None "2024-02-04"))
          after_history).2).1 = inr (RequestsBody rs)
    ∧ r ∈ rs
    ∧ r !! "id" = Some (VStr "65f0c0ffee0123456789abcd")
    ∧ r !! "createdAt" = Some (VStr "2024-02-04").
Proof.
  destruct (created_request_is_listed quiet quiet (ask None "2024-02-04")
              after_history)
    as (rs & r & Hrun & Hin & Hid & _ & _ & _ & _ & _ & _ & Hat).
  - reflexivity.
  - reflexivity.
  - reflexivity.
  - left. reflexivity.
  - apply (bool_decide_unpack _). vm_compute. exact I.
  - exists rs, r. split; [exact Hrun|]. split; [exact Hin|].
    split; [exact Hid|exact Hat].
Defined.

Lemma decision_shrinks_pending_witness :
  pending_count
    (handle_request_action quiet request_id "reject" carer_b one_request).2
  + 1 = pending_count one_request.
Proof.
  apply (decision_shrinks_pending quiet request_id "reject" carer_b
           one_request stored_oid request_doc).
  - apply (bool_decide_unpack _). vm_compute. exact I.
  - reflexivity.
  - reflexivity.
  - reflexivity.
Defined.

Lemma reachable_reads_answer_witness :
  (∀ user detail,
     (login quiet user (serve_all history initial)).1
       ≠ inl (HTTPException 500 detail))
  ∧ ∃ l, (get_pending_requests quiet (serve_all history initial)).1
           = inr (RequestsBody l).
Proof.
  apply (reachable_reads_answer history quiet). reflexivity.
Defined.

Lemma signup_twice_conflicts_witness :
  signup quiet alice (signup quiet alice empty_db).2 =
    (inl (HTTPException 409
       "Email already registered. Please use a different email or login to your existing account."),
     (signup quiet alice empty_db).2).
Proof.
  apply (signup_twice_conflicts quiet quiet alice alice empty_db);
    reflexivity.
Defined.

Lemma unacknowledged_update_answers_witness :
  (handle_request_action unacknowledging request_id "approve" carer_a
     one_request).1 =
    inl (HTTPException 500
           "Failed to process service request: A value for matched_count is not available when the write is unacknowledged. Check the acknowledged attribute to avoid this error.").
Proof.
  apply (unacknowledged_update_answers unacknowledging request_id "approve"
           carer_a one_request).
  - apply (bool_decide_unpack _). vm_compute. exact I.
  - eexists. reflexivity.
  - reflexivity.
  - reflexivity.
Defined.
